(** * canvas-smith frontend: the Button control and the backend probe

    A shallow embedding of the two stateful pieces of the Vue frontend:

    - [Button]: [componenets/Button.vue] (props, the two refs [isHovered]
      and [isPressed], the listeners of the template, the computed
      [buttonClasses]);
    - [App]: the root component holding the four connection refs and the
      async function [testBackendConnection].

    Script code is embedded in a small free monad [Eff.Prog] with reads and
    writes of the component's refs, observable outputs ([emit],
    [console.error]), thrown values, and suspension on a promise
    ([Eff.Await]); [try]/[catch]/[finally] are combinators on programs. *)

From stdpp Require Import base option strings gmap list pretty.
From Stdlib Require Import ZArith Floats.

Set Warnings "-register-all".
Local Open Scope Z_scope.

(** ** The fragment of JavaScript values the components handle *)
Module Js.

(** Runtime values.  Type annotations such as [ref<string>] are erased
    at run time, so a ref holds whatever value is assigned to it.
    [VError name message] is an instance of [Error] or of one of its
    subclasses. *)
Inductive Value : Type :=
| VUndefined
| VNull
| VBool (b : bool)
| VNum (x : float)
| VStr (s : string)
| VArr (items : list Value)
| VObj (own : gmap string Value)
| VError (name message : string).

(** Result of evaluating an expression or a statement. *)
Inductive Completion (A : Type) : Type :=
| Normal (a : A)
| Abrupt (thrown : Value).
Arguments Normal {A} a.
Arguments Abrupt {A} thrown.

(** [ToBoolean], which is what [Boolean(v)], [!v], [a && b] and [a || b]
    test. *)
Definition truthy (v : Value) : bool :=
  match v with
  | VUndefined | VNull => false
  | VBool b => b
  | VNum x => negb (PrimFloat.eqb x 0%float || PrimFloat.is_nan x)
  | VStr s => negb (String.eqb s "")
  | VArr _ | VObj _ | VError _ _ => true
  end.

(** [a && b] yields [a] itself when [a] is falsy, else [b]. *)
Definition and (a b : Value) : Value := if truthy a then b else a.

(** [a || b] yields [a] itself when [a] is truthy, else [b]. *)
Definition or (a b : Value) : Value := if truthy a then a else b.

(** [!a]. *)
Definition not (a : Value) : Value := VBool (negb (truthy a)).

(** [v.key] for a key that no built-in prototype defines (members
    inherited from [Object.prototype], [Array.prototype] and the wrapper
    prototypes, such as [length] or [toString], are outside this
    fragment; [backend_status] and [message], the keys read by the
    probe, are not among them, except [message] on an error object).
    Reading a property of [undefined] or [null] throws a [TypeError];
    a missing property reads as [undefined]. *)
Definition get_prop (v : Value) (key : string) : Completion Value :=
  match v with
  | VUndefined =>
      Abrupt (VError "TypeError"
                ("Cannot read properties of undefined (reading '" +:+ key +:+ "')"))
  | VNull =>
      Abrupt (VError "TypeError"
                ("Cannot read properties of null (reading '" +:+ key +:+ "')"))
  | VObj own => Normal (default VUndefined (own !! key))
  | VError name message =>
      Normal (if String.eqb key "message" then VStr message
              else if String.eqb key "name" then VStr name
              else VUndefined)
  | VBool _ | VNum _ | VStr _ | VArr _ => Normal VUndefined
  end.

(** [new Error(message)]. *)
Definition new_Error (message : string) : Value := VError "Error" message.

End Js.

(** ** Component script code as programs *)
Module Eff.

(** How an awaited promise settles. *)
Inductive Settled (R : Type) : Type :=
| Fulfilled (r : R)
| Rejected (reason : Js.Value).
Arguments Fulfilled {R} r.
Arguments Rejected {R} reason.

Section Prog.
(** [St]: the refs and props of the component instance; [Out]: what
    the code sends out ([emit], console); [Req]: the operations that
    return a promise, [Res q] being what the promise of [q] is fulfilled
    with. *)
Context {St Out Req : Type} {Res : Req -> Type}.

Inductive Prog (A : Type) : Type :=
| Ret (a : A)
| Throw (e : Js.Value)
| Read (k : St -> Prog A)
| Write (f : St -> St) (k : Prog A)
| Emit (o : Out) (k : Prog A)
| Await (q : Req) (k : Settled (Res q) -> Prog A).
Arguments Ret {A} a.
Arguments Throw {A} e.
Arguments Read {A} k.
Arguments Write {A} f k.
Arguments Emit {A} o k.
Arguments Await {A} q k.

Fixpoint bind {A B : Type} (p : Prog A) (f : A -> Prog B) : Prog B :=
  match p with
  | Ret a => f a
  | Throw e => Throw e
  | Read k => Read (fun s => bind (k s) f)
  | Write g k => Write g (bind k f)
  | Emit o k => Emit o (bind k f)
  | Await q k => Await q (fun r => bind (k r) f)
  end.

(** [try { p } catch (e) { h e }] *)
Fixpoint try_catch {A : Type} (p : Prog A) (h : Js.Value -> Prog A) : Prog A :=
  match p with
  | Ret a => Ret a
  | Throw e => h e
  | Read k => Read (fun s => try_catch (k s) h)
  | Write g k => Write g (try_catch k h)
  | Emit o k => Emit o (try_catch k h)
  | Await q k => Await q (fun r => try_catch (k r) h)
  end.

(** [try { p } finally { fin }]: [fin] runs on both exits of [p] and
    [p]'s completion is kept, unless [fin] itself throws. *)
Fixpoint try_finally {A : Type} (p : Prog A) (fin : Prog unit) : Prog A :=
  match p with
  | Ret a => bind fin (fun _ => Ret a)
  | Throw e => bind fin (fun _ => Throw e)
  | Read k => Read (fun s => try_finally (k s) fin)
  | Write g k => Write g (try_finally k fin)
  | Emit o k => Emit o (try_finally k fin)
  | Await q k => Await q (fun r => try_finally (k r) fin)
  end.

(** [try { p } catch (e) { h e } finally { fin }] *)
Definition try_catch_finally {A : Type}
    (p : Prog A) (h : Js.Value -> Prog A) (fin : Prog unit) : Prog A :=
  try_finally (try_catch p h) fin.

Definition read : Prog St := Read Ret.
Definition write (f : St -> St) : Prog unit := Write f (Ret tt).
Definition emit (o : Out) : Prog unit := Emit o (Ret tt).
Definition throw {A : Type} (e : Js.Value) : Prog A := Throw e.

(** [await q]: suspend until the promise settles; a rejection is
    rethrown at the [await]. *)
Definition await (q : Req) : Prog (Res q) :=
  Await q (fun r => match r with
                    | Fulfilled v => Ret v
                    | Rejected reason => Throw reason
                    end).

(** An expression that may throw, used as a statement or operand. *)
Definition eval {A : Type} (c : Js.Completion A) : Prog A :=
  match c with
  | Js.Normal a => Ret a
  | Js.Abrupt e => Throw e
  end.

(** The surroundings of a run: how each promise settles, and what the
    other tasks of the event loop do to the component's state while
    the program is suspended on it. *)
Record World : Type := {
  settle : forall q : Req, Settled (Res q);
  meanwhile : Req -> St -> St;
}.

(** A suspension point, with the state left visible (to the renderer
    and to other tasks) while the program waits. *)
Inductive Suspension : Type :=
| SuspendedOn (q : Req) (visible : St).

Record Outcome (A : Type) : Type := {
  completion : Js.Completion A;
  final : St;
  outputs : list Out;
  suspensions : list Suspension;
}.
Arguments completion {A} _.
Arguments final {A} _.
Arguments outputs {A} _.
Arguments suspensions {A} _.

Definition with_output {A : Type} (o : Out) (r : Outcome A) : Outcome A :=
  {| completion := completion r; final := final r;
     outputs := o :: outputs r; suspensions := suspensions r |}.

Definition with_suspension {A : Type} (p : Suspension) (r : Outcome A) : Outcome A :=
  {| completion := completion r; final := final r;
     outputs := outputs r; suspensions := p :: suspensions r |}.

(** Run a program from state [s] until it completes. *)
Fixpoint run {A : Type} (w : World) (p : Prog A) (s : St) : Outcome A :=
  match p with
  | Ret a =>
      {| completion := Js.Normal a; final := s; outputs := []; suspensions := [] |}
  | Throw e =>
      {| completion := Js.Abrupt e; final := s; outputs := []; suspensions := [] |}
  | Read k => run w (k s) s
  | Write f k => run w k (f s)
  | Emit o k => with_output o (run w k s)
  | Await q k =>
      with_suspension (SuspendedOn q s)
        (run w (k (settle w q)) (meanwhile w q s))
  end.

End Prog.

Arguments Prog St Out Req Res A : clear implicits.
Arguments World St Req Res : clear implicits.
Arguments Outcome St Out Req A : clear implicits.
Arguments Suspension St Req : clear implicits.
Arguments Ret {St Out Req Res A} a.
Arguments Throw {St Out Req Res A} e.
Arguments Read {St Out Req Res A} k.
Arguments Write {St Out Req Res A} f k.
Arguments Emit {St Out Req Res A} o k.
Arguments Await {St Out Req Res A} q k.
Arguments completion {St Out Req A} _.
Arguments final {St Out Req A} _.
Arguments outputs {St Out Req A} _.
Arguments suspensions {St Out Req A} _.
Arguments SuspendedOn {St Req} q visible.

#[global] Instance prog_ret {St Out Req Res} : MRet (Prog St Out Req Res) :=
  fun A a => Ret a.
#[global] Instance prog_bind {St Out Req Res} : MBind (Prog St Out Req Res) :=
  fun A B f p => bind p f.

(** Synchronous code awaits nothing. *)
Inductive NoReq : Type := .

Definition NoRes (q : NoReq) : Type := match q with end.

Definition sync_world {St : Type} : World St NoReq NoRes :=
  {| settle := fun q : NoReq => match q with end;
     meanwhile := fun q : NoReq => match q with end |}.

End Eff.

(** ** componenets/Button.vue *)
Module Button.
Import Eff.

Inductive Variant : Type := primary | secondary.
Inductive Size : Type := sm | md | lg.

(** [interface ButtonProps]: every member is optional. *)
Record ButtonProps : Type := {
  given_variant : option Variant;
  given_size : option Size;
  given_disabled : option bool;
}.

(** The props object the script reads, after [withDefaults]. *)
Record Props : Type := {
  variant : Variant;
  size : Size;
  disabled : bool;
}.

Definition withDefaults (given : ButtonProps) : Props :=
  {| variant := default primary (given_variant given);
     size := default md (given_size given);
     disabled := default false (given_disabled given) |}.

(** State of one instance: the props handed down by the parent and the
    two refs. *)
Record ControlState : Type := {
  props : Props;
  isHovered : bool;
  isPressed : bool;
}.

Definition set_isHovered (b : bool) (s : ControlState) : ControlState :=
  {| props := props s; isHovered := b; isPressed := isPressed s |}.

Definition set_isPressed (b : bool) (s : ControlState) : ControlState :=
  {| props := props s; isHovered := isHovered s; isPressed := b |}.

Definition set_props (p : Props) (s : ControlState) : ControlState :=
  {| props := p; isHovered := isHovered s; isPressed := isPressed s |}.

(** [setup()]: [isHovered = ref(false)], [isPressed = ref(false)]. *)
Definition setup (given : ButtonProps) : ControlState :=
  {| props := withDefaults given; isHovered := false; isPressed := false |}.

(** *** Computed classes *)

Definition baseClasses : list Js.Value :=
  [ Js.VStr "inline-flex"; Js.VStr "items-center"; Js.VStr "justify-center";
    Js.VStr "font-medium"; Js.VStr "transition-all"; Js.VStr "duration-300";
    Js.VStr "ease-out"; Js.VStr "outline-none"; Js.VStr "select-none";
    Js.VStr "relative"; Js.VStr "overflow-hidden" ].

Definition sizeClasses (s : ControlState) (key : Size) : list Js.Value :=
  match key with
  | sm => [ Js.VStr "w-20"; Js.VStr "h-8"; Js.VStr "text-xs";
            if isHovered s then Js.VStr "rounded-md" else Js.VStr "rounded-xl" ]
  | md => [ Js.VStr "w-30"; Js.VStr "h-10"; Js.VStr "text-sm";
            if isHovered s then Js.VStr "rounded-lg" else Js.VStr "rounded-2xl" ]
  | lg => [ Js.VStr "w-40"; Js.VStr "h-12"; Js.VStr "text-base";
            if isHovered s then Js.VStr "rounded-xl" else Js.VStr "rounded-3xl" ]
  end.

Definition variantClasses (s : ControlState) (key : Variant) : list Js.Value :=
  let off := Js.VBool (disabled (props s)) in
  let hovered := Js.VBool (isHovered s) in
  let pressed := Js.VBool (isPressed s) in
  match key with
  | primary =>
      [ if Js.truthy off
        then Js.VStr "bg-gray-300 text-gray-500 cursor-not-allowed"
        else Js.VStr "bg-canvas-accent text-white cursor-pointer";
        Js.and (Js.and (Js.not off) hovered)
               (Js.VStr "shadow-lg shadow-canvas-accent/30");
        Js.and (Js.and (Js.not off) pressed) (Js.VStr "scale-95");
        Js.and (Js.and (Js.and (Js.not off) hovered) (Js.not pressed))
               (Js.VStr "scale-102 -translate-y-0.5") ]
  | secondary =>
      [ if Js.truthy off
        then Js.VStr "bg-gray-100 text-gray-400 border border-gray-200 cursor-not-allowed"
        else Js.VStr "bg-canvas-surface text-canvas-text border border-gray-200 cursor-pointer hover:border-gray-300";
        Js.and (Js.and (Js.not off) hovered)
               (Js.VStr "shadow-lg shadow-black/10");
        Js.and (Js.and (Js.not off) pressed) (Js.VStr "scale-95");
        Js.and (Js.and (Js.and (Js.not off) hovered) (Js.not pressed))
               (Js.VStr "scale-101 -translate-y-0.5") ]
  end.

(** [[...baseClasses, ...sizeClasses[props.size],
     ...variantClasses[props.variant]].filter(Boolean)] *)
Definition buttonClasses (s : ControlState) : list Js.Value :=
  List.filter Js.truthy
    (baseClasses ++ sizeClasses s (size (props s))
                 ++ variantClasses s (variant (props s))).

(** The style strings that render a hover or a press. *)
Definition interaction_classes : list Js.Value :=
  [ Js.VStr "scale-95";
    Js.VStr "shadow-lg shadow-canvas-accent/30";
    Js.VStr "shadow-lg shadow-black/10";
    Js.VStr "scale-102 -translate-y-0.5";
    Js.VStr "scale-101 -translate-y-0.5" ].

Section Handlers.
(** The DOM's [MouseEvent]; the component only passes it on. *)
Context {MouseEvent : Type}.

(** [defineEmits<{ click: [event: MouseEvent] }>()] *)
Inductive Emitted : Type :=
| click (event : MouseEvent).

Definition Handler : Type -> Type := Prog ControlState Emitted NoReq NoRes.

Definition handleClick (event : MouseEvent) : Handler unit :=
  s ← read;
  if negb (disabled (props s)) then emit (click event) else mret tt.

Definition handleMouseLeave : Handler unit :=
  write (set_isHovered false);;
  write (set_isPressed false).

(** Inline listeners of the template. *)
Definition on_mouseenter : Handler unit := write (set_isHovered true).
Definition on_mousedown : Handler unit := write (set_isPressed true).
Definition on_mouseup : Handler unit := write (set_isPressed false).

(** What reaches a mounted instance: the five DOM events the template
    listens to, and a new set of props from a re-render of the
    parent. *)
Inductive Input : Type :=
| dom_click (event : MouseEvent)
| dom_mouseenter
| dom_mouseleave
| dom_mousedown
| dom_mouseup
| props_changed (given : ButtonProps).

Definition listener (i : Input) : Handler unit :=
  match i with
  | dom_click event => handleClick event
  | dom_mouseenter => on_mouseenter
  | dom_mouseleave => handleMouseLeave
  | dom_mousedown => on_mousedown
  | dom_mouseup => on_mouseup
  | props_changed given => write (set_props (withDefaults given))
  end.

Definition handle {A : Type} (h : Handler A) (s : ControlState)
  : Outcome ControlState Emitted NoReq A :=
  run sync_world h s.

(** Deliver a sequence of inputs in order; the result is the state
    reached and everything emitted on the way. *)
Fixpoint deliver (inputs : list Input) (s : ControlState)
  : ControlState * list Emitted :=
  match inputs with
  | [] => (s, [])
  | i :: rest =>
      let r := handle (listener i) s in
      let '(s', later) := deliver rest (final r) in
      (s', outputs r ++ later)
  end.



End Handlers.

Arguments Emitted : clear implicits.
Arguments Input : clear implicits.
Arguments Handler : clear implicits.

End Button.

(** ** App.vue: the connection refs and the backend probe *)
Module App.
Import Eff.

(** The four refs of the root component. *)
Record Store : Type := {
  backendStatus : Js.Value;
  backendMessage : Js.Value;
  isConnected : bool;
  isLoading : bool;
}.

Definition set_backendStatus (v : Js.Value) (s : Store) : Store :=
  {| backendStatus := v; backendMessage := backendMessage s;
     isConnected := isConnected s; isLoading := isLoading s |}.

Definition set_backendMessage (v : Js.Value) (s : Store) : Store :=
  {| backendStatus := backendStatus s; backendMessage := v;
     isConnected := isConnected s; isLoading := isLoading s |}.

Definition set_isConnected (b : bool) (s : Store) : Store :=
  {| backendStatus := backendStatus s; backendMessage := backendMessage s;
     isConnected := b; isLoading := isLoading s |}.

Definition set_isLoading (b : bool) (s : Store) : Store :=
  {| backendStatus := backendStatus s; backendMessage := backendMessage s;
     isConnected := isConnected s; isLoading := b |}.

(** Initial values of the refs. *)
Definition setup : Store :=
  {| backendStatus := Js.VStr "checking...";
     backendMessage := Js.VStr "Connecting to backend...";
     isConnected := false;
     isLoading := true |}.

(** What the script uses of a fetch [Response]: its status code and how
    the promise returned by [response.json()] settles. *)
Record Response : Type := {
  status : Z;
  json : Settled Js.Value;
}.

(** [response.ok]: the status is in the range 200-299. *)
Definition ok (response : Response) : bool :=
  (200 <=? status response) && (status response <=? 299).

(** The two calls that return a promise: [fetch(url)] and
    [response.json()], and what each promise is fulfilled with. *)
Inductive Request : Type :=
| fetch (url : string)
| Response_json (response : Response).

Definition Result (q : Request) : Type :=
  match q with
  | fetch _ => Response
  | Response_json _ => Js.Value
  end.

Inductive Console : Type :=
| console_error (args : list Js.Value).

Definition Script : Type -> Type := Prog Store Console Request Result.

(** The surroundings of the component: how [fetch] settles for each
    URL, and what other tasks do to the refs while a call waits. *)
Definition world (network : string -> Settled Response)
    (others : Request -> Store -> Store)
  : World Store Request Result :=
  {| settle := fun q =>
       match q return Settled (Result q) with
       | fetch url => network url
       | Response_json response => json response
       end;
     meanwhile := others |}.

Section Script.
(** [import.meta.env.VITE_API_URL]: a string, or undefined. *)
Variable VITE_API_URL : option string.

(** [import.meta.env.VITE_API_URL || 'http://localhost:8000']: the
    empty string is falsy, as undefined is. *)
Definition API_BASE_URL : string :=
  match VITE_API_URL with
  | Some url => if String.eqb url "" then "http://localhost:8000" else url
  | None => "http://localhost:8000"
  end.

Definition testBackendConnection : Script unit :=
  try_catch_finally
    (write (set_isLoading true);;
     response ← await (fetch (API_BASE_URL +:+ "/api/status"));
     if ok response then
       data ← await (Response_json response);
       backend_status ← eval (Js.get_prop data "backend_status");
       write (set_backendStatus backend_status);;
       message ← eval (Js.get_prop data "message");
       write (set_backendMessage message);;
       write (set_isConnected true)
     else
       throw (Js.new_Error ("HTTP " +:+ pretty (status response))))
    (fun error =>
       emit (console_error [Js.VStr "Backend connection failed:"; error]);;
       write (set_backendStatus (Js.VStr "disconnected"));;
       write (set_backendMessage (Js.VStr "Failed to connect to backend"));;
       write (set_isConnected false))
    (write (set_isLoading false)).

(** [onMounted(() => { testBackendConnection() })] *)
Definition onMounted : Script unit := testBackendConnection.

(** One call of the probe in given surroundings. *)
Definition probe (network : string -> Settled Response)
    (others : Request -> Store -> Store) (s : Store)
  : Outcome Store Console Request unit :=
  run (world network others) testBackendConnection s.

End Script.

(** The three ways a probe fails: [fetch] rejects, the response has a
    status outside 200-299, or [response.json()] rejects. *)
Inductive ProbeFailure (settled : Settled Response) : Prop :=
| transport_rejection (reason : Js.Value) :
    settled = Rejected reason -> ProbeFailure settled
| http_status (response : Response) :
    settled = Fulfilled response -> ok response = false ->
    ProbeFailure settled
| body_parse (response : Response) (reason : Js.Value) :
    settled = Fulfilled response -> ok response = true ->
    json response = Rejected reason ->
    ProbeFailure settled.

(** The URL the probe requests. *)
Definition status_url (VITE_API_URL : option string) : string :=
  API_BASE_URL VITE_API_URL +:+ "/api/status".

(** The refs after a failed probe. *)
Definition disconnected : Store :=
  {| backendStatus := Js.VStr "disconnected";
     backendMessage := Js.VStr "Failed to connect to backend";
     isConnected := false;
     isLoading := false |}.

(** Other tasks leave the refs alone. *)
Definition quiet : Request -> Store -> Store :=
  fun _ s => s.

End App.

(** ** Concrete instances used in the examples below *)
Module Examples.
Import Eff.

(** [<Button>] with no prop given, and [<Button disabled>]. *)
Definition no_props : Button.ButtonProps :=
  {| Button.given_variant := None; Button.given_size := None;
     Button.given_disabled := None |}.

Definition disabled_props : Button.ButtonProps :=
  {| Button.given_variant := None; Button.given_size := None;
     Button.given_disabled := Some true |}.

(** A backend answering 500, one answering 200 with the status body,
    one answering 200 with an empty object, and one that is down. *)
Definition answers_500 : string -> Settled App.Response :=
  fun _ => Fulfilled {| App.status := 500;
                        App.json := Fulfilled (Js.VObj ∅) |}.

Definition status_body : gmap string Js.Value :=
  <["backend_status" := Js.VStr "ok"]> (<["message" := Js.VStr "ready"]> ∅).

Definition answers_ready : string -> Settled App.Response :=
  fun _ => Fulfilled {| App.status := 200;
                        App.json := Fulfilled (Js.VObj status_body) |}.

Definition answers_empty_object : string -> Settled App.Response :=
  fun _ => Fulfilled {| App.status := 200;
                        App.json := Fulfilled (Js.VObj ∅) |}.

Definition unreachable : string -> Settled App.Response :=
  fun _ => Rejected (Js.VError "TypeError" "Failed to fetch").

End Examples.

(** ** The page around the probe: templates, listeners, pending calls *)
Module Page.
Import Eff.

(** What the script of a page sends out: the console entries of the
    probe, [console.log], [window.open], and a value thrown out of a
    listener. *)
Inductive Effect : Type :=
| console (entry : App.Console)
| console_log (args : list Js.Value)
| window_open (url target : string)
| uncaught (thrown : Js.Value).

(** The same program with its outputs renamed. *)
Fixpoint map_out {St O1 O2 Req : Type} {Res : Req -> Type} {A : Type}
    (f : O1 -> O2) (p : Prog St O1 Req Res A) : Prog St O2 Req Res A :=
  match p with
  | Ret a => Ret a
  | Throw e => Throw e
  | Read k => Read (fun s => map_out f (k s))
  | Write g k => Write g (map_out f k)
  | Emit o k => Emit (f o) (map_out f k)
  | Await q k => Await q (fun r => map_out f (k r))
  end.

Definition Task : Type -> Type := Prog App.Store Effect App.Request App.Result.

(** A call suspended at an [await]. *)
Inductive Pending : Type :=
| Waiting (q : App.Request) (k : Settled (App.Result q) -> Task unit).

(** Run a task up to its first [await], or to its end. *)
Fixpoint advance (p : Task unit) (s : App.Store)
  : App.Store * list Effect * option Pending :=
  match p with
  | Ret _ => (s, [], None)
  | Throw e => (s, [uncaught e], None)
  | Read k => advance (k s) s
  | Write f k => advance k (f s)
  | Emit o k => let '(s', out, w) := advance k s in (s', o :: out, w)
  | Await q k => (s, [], Some (Waiting q k))
  end.

(** Resume a suspended call once its promise has settled. *)
Definition resume (network : string -> Settled App.Response) (w : Pending)
    (s : App.Store) : App.Store * list Effect * option Pending :=
  match w with
  | Waiting q k => advance (k (settle (App.world network App.quiet) q)) s
  end.

(** *** Class bindings *)

(** [:class="{ name: condition, ... }"]: the names whose condition
    holds, in the order of the object. *)
Definition class_object (entries : list (string * bool)) : list string :=
  fst <$> List.filter snd entries.

Section Script.
Variable VITE_API_URL : option string.
(** [typeof window !== 'undefined'] *)
Variable window_defined : bool.
Context {MouseEvent : Type}.

Definition testBackendConnection : Task unit :=
  map_out console (App.testBackendConnection VITE_API_URL).

Definition openApiDocs : Task unit :=
  if window_defined
  then emit (window_open (App.API_BASE_URL VITE_API_URL +:+ "/docs") "_blank")
  else mret tt.

Definition onMounted : Task unit := testBackendConnection.

(** A [<Button>] of a template: the props bound to it and the listener
    of its [click]. *)
Record Slot : Type := {
  bind_props : App.Store -> Button.ButtonProps;
  on_click : MouseEvent -> Task unit;
}.

(** The template with three buttons: test, secondary, documentation. *)
Definition status_page : list Slot :=
  [ {| bind_props := fun s =>
         {| Button.given_variant := Some Button.primary;
            Button.given_size := Some Button.md;
            Button.given_disabled := Some (App.isLoading s) |};
       on_click := fun _ => testBackendConnection |};
    {| bind_props := fun _ =>
         {| Button.given_variant := Some Button.secondary;
            Button.given_size := Some Button.md;
            Button.given_disabled := None |};
       on_click := fun _ => emit (console_log [Js.VStr "Secondary clicked"]) |};
    {| bind_props := fun _ =>
         {| Button.given_variant := Some Button.primary;
            Button.given_size := Some Button.lg;
            Button.given_disabled := None |};
       on_click := fun _ => openApiDocs |} ].

(** The template with the single documentation button. *)
Definition docs_page : list Slot :=
  [ {| bind_props := fun s =>
         {| Button.given_variant := Some Button.primary;
            Button.given_size := Some Button.md;
            Button.given_disabled := Some (App.isLoading s) |};
       on_click := fun _ => openApiDocs |} ].

(** A mounted page: the refs of the root component, the state of each
    [<Button>] instance, and the calls waiting on a promise. *)
Record State : Type := {
  refs : App.Store;
  buttons : list Button.ControlState;
  waiting : list Pending;
}.

(** DOM events on a button element. *)
Inductive Dom : Type :=
| ev_click (event : MouseEvent)
| ev_mouseenter
| ev_mouseleave
| ev_mousedown
| ev_mouseup.

Definition to_input (d : Dom) : Button.Input MouseEvent :=
  match d with
  | ev_click event => Button.dom_click event
  | ev_mouseenter => Button.dom_mouseenter
  | ev_mouseleave => Button.dom_mouseleave
  | ev_mousedown => Button.dom_mousedown
  | ev_mouseup => Button.dom_mouseup
  end.

(** One task of the event loop: a DOM event on the [target]-th button,
    or the settling of the promise the [n]-th pending call waits on
    ([network] tells how). *)
Inductive Event : Type :=
| dom (target : nat) (d : Dom)
| settled (n : nat) (network : string -> Settled App.Response).

(** Re-render: every button gets the props its bindings evaluate to. *)
Definition render (template : list Slot) (s : App.Store)
    (bs : list Button.ControlState) : list Button.ControlState :=
  zip_with (fun slot b =>
              Button.set_props (Button.withDefaults (bind_props slot s)) b)
           template bs.

(** Call the listener of the slot for each emitted [click]. *)
Fixpoint notify (slot : Slot) (emitted : list (Button.Emitted MouseEvent))
    (s : App.Store) : App.Store * list Effect * list Pending :=
  match emitted with
  | [] => (s, [], [])
  | Button.click event :: rest =>
      let '(s1, out1, w1) := advance (on_click slot event) s in
      let '(s2, out2, w2) := notify slot rest s1 in
      (s2, out1 ++ out2, option_list w1 ++ w2)
  end.

(** A DOM event without the re-render that follows its task: the
    listener of the button runs and then, for a [click] it emits, the
    listener bound in the template, up to its first [await].  The button
    keeps the props of the last render.  This is how an event finds the
    page when it is dispatched in the same task as the one before it
    (two [click()] calls in a row): Vue re-renders once, after the
    task. *)
Definition dispatch (template : list Slot) (target : nat) (d : Dom)
    (pg : State) : State * list Effect :=
  match template !! target, buttons pg !! target with
  | Some slot, Some b =>
      let r := Button.handle (Button.listener (to_input d)) b in
      let '(s', out, ws) := notify slot (outputs r) (refs pg) in
      ({| refs := s';
          buttons := <[target := final r]> (buttons pg);
          waiting := waiting pg ++ ws |}, out)
  | _, _ => (pg, [])
  end.

(** One task that delivers a single event, with the re-render Vue makes
    before the next task.  A DOM event runs the listener of the button
    and then, for a [click] it emits, the listener bound in the template,
    up to its first [await].  A settlement resumes the pending call, up
    to its next [await] or its end.  The buttons end the task with the
    props of the refs as they are then.  Several DOM events dispatched
    within one task are not a sequence of [step]s: see [dispatch]. *)
Definition step (template : list Slot) (e : Event) (pg : State)
  : State * list Effect :=
  match e with
  | dom target d =>
      match template !! target, buttons pg !! target with
      | Some slot, Some b =>
          let r := Button.handle (Button.listener (to_input d)) b in
          let '(s', out, ws) := notify slot (outputs r) (refs pg) in
          ({| refs := s';
              buttons := render template s' (<[target := final r]> (buttons pg));
              waiting := waiting pg ++ ws |}, out)
      | _, _ => (pg, [])
      end
  | settled n network =>
      match waiting pg !! n with
      | Some w =>
          let '(s', out, w') := resume network w (refs pg) in
          ({| refs := s';
              buttons := render template s' (buttons pg);
              waiting := delete n (waiting pg) ++ option_list w' |}, out)
      | None => (pg, [])
      end
  end.

(** Mount: refs at their initial values, buttons set up with the props
    bound to them, then the [onMounted] hook. *)
Definition mount (template : list Slot) : State * list Effect :=
  let bs := (fun slot => Button.setup (bind_props slot App.setup)) <$> template in
  let '(s1, out, w) := advance onMounted App.setup in
  ({| refs := s1; buttons := render template s1 bs; waiting := option_list w |}, out).

(** The page after a sequence of tasks, each delivering one event, with
    everything sent out. *)
Fixpoint after (template : list Slot) (events : list Event)
    (pg : State * list Effect) : State * list Effect :=
  match events with
  | [] => pg
  | e :: rest =>
      let '(pg', out) := step template e (fst pg) in
      after template rest (pg', snd pg ++ out)
  end.

End Script.

Arguments Slot : clear implicits.
Arguments Event : clear implicits.
Arguments Dom : clear implicits.

(** The two pages of the source after a sequence of tasks from mount,
    each task delivering one event. *)
Definition status_page_after (VITE_API_URL : option string)
    (window_defined : bool) {MouseEvent : Type}
    (events : list (Event MouseEvent)) : State * list Effect :=
  after (status_page VITE_API_URL window_defined) events
    (mount (MouseEvent := MouseEvent) VITE_API_URL
       (status_page VITE_API_URL window_defined)).

Definition docs_page_after (VITE_API_URL : option string)
    (window_defined : bool) {MouseEvent : Type}
    (events : list (Event MouseEvent)) : State * list Effect :=
  after (docs_page VITE_API_URL window_defined) events
    (mount (MouseEvent := MouseEvent) VITE_API_URL
       (docs_page VITE_API_URL window_defined)).

(** *** Bindings of the status panel *)

(** The classes bound to the status box of the page with three
    buttons. *)
Definition panel_classes (s : App.Store) : list string :=
  class_object
    [ ("bg-green-50 border-green-200", App.isConnected s);
      ("bg-red-50 border-red-200", negb (App.isConnected s) && negb (App.isLoading s));
      ("bg-yellow-50 border-yellow-200", App.isLoading s) ].

End Page.

(** ** frontend/src/App.vue: the page with the toast *)
Module Landing.
Import Eff.

(** The callback of a timer; it sends nothing out. *)
Definition Callback : Type := Prog bool Empty_set NoReq NoRes unit.

(** [setTimeout(callback, delay)] *)
Inductive Out : Type :=
| setTimeout (callback : Callback) (delay : Z).

(** The only ref of the component is [showToast]. *)
Definition Handler : Type -> Type := Prog bool Out NoReq NoRes.

(** [() => { showToast.value = false }] *)
Definition hide : Callback := Write (fun _ : bool => false) (Ret tt).

Definition handleClick : Handler unit :=
  shown ← read;
  write (fun _ : bool => negb shown);;
  shown ← read;
  if shown : bool then emit (setTimeout hide 1500) else mret tt.

(** The mounted page: the ref and the timers not fired yet, oldest
    first. *)
Record State : Type := {
  showToast : bool;
  timers : list (Callback * Z);
}.

(** [const showToast = ref(false)] *)
Definition setup : State := {| showToast := false; timers := [] |}.

(** A click on the button, or the [n]-th pending timer firing. *)
Inductive Event : Type :=
| click
| fire (n : nat).

Definition registered (o : Out) : Callback * Z :=
  match o with setTimeout callback delay => (callback, delay) end.

Definition step (e : Event) (st : State) : State :=
  match e with
  | click =>
      let r := run sync_world handleClick (showToast st) in
      {| showToast := final r;
         timers := timers st ++ (registered <$> outputs r) |}
  | fire n =>
      match timers st !! n with
      | Some (callback, _) =>
          {| showToast := final (run sync_world callback (showToast st));
             timers := delete n (timers st) |}
      | None => st
      end
  end.

Definition after (events : list Event) (st : State) : State :=
  foldl (fun st e => step e st) st events.

(** [<div v-if="showToast" class="toast">] *)
Definition toast_rendered (st : State) : bool := showToast st.

End Landing.

(** ** Reading a sequence of inputs of a button *)
Module Traces.

(** The clicks of a sequence of inputs that arrive while [disabled] is
    false, in order; [off] is the value of [disabled] before the
    sequence. *)
Fixpoint enabled_clicks {MouseEvent : Type} (off : bool)
    (inputs : list (Button.Input MouseEvent)) : list (Button.Emitted MouseEvent) :=
  match inputs with
  | [] => []
  | Button.dom_click event :: rest =>
      if off then enabled_clicks off rest
      else Button.click event :: enabled_clicks off rest
  | Button.props_changed given :: rest =>
      enabled_clicks (Button.disabled (Button.withDefaults given)) rest
  | _ :: rest => enabled_clicks off rest
  end.

(** The input is a DOM event, not new props from the parent. *)
Definition is_dom {MouseEvent : Type} (i : Button.Input MouseEvent) : bool :=
  match i with
  | Button.props_changed _ => false
  | _ => true
  end.

End Traces.

(** ** What holds of a page between two tasks *)
Module PageInv.
Import Eff.

(** An effect other than a value thrown out of a listener. *)
Definition handled (o : Page.Effect) : bool :=
  match o with
  | Page.uncaught _ => false
  | _ => true
  end.

(** The request a pending call waits on. *)
Definition pending_request (w : Page.Pending) : App.Request :=
  match w with Page.Waiting q _ => q end.

(** The pending call completes after at most [n] more settlements,
    however they turn out: until then it leaves the refs alone and sends
    nothing out; when it completes, [isLoading] is false and nothing was
    thrown out of it. *)
Fixpoint finishes_loading (n : nat) (w : Page.Pending) : Prop :=
  match n with
  | O => False
  | S n' =>
      forall (network : string -> Settled App.Response) (s : App.Store),
        match Page.resume network w s with
        | (s', out, None) =>
            App.isLoading s' = false /\ forallb handled out = true
        | (s', out, Some w') =>
            s' = s /\ out = [] /\ finishes_loading n' w'
        end
  end.

Section Template.
Variable VITE_API_URL : option string.
Context {MouseEvent : Type}.

(** A listener that returns at once, leaves the refs alone and throws
    nothing. *)
Definition inert (p : Page.Task unit) : Prop :=
  forall s : App.Store,
    exists out, Page.advance p s = (s, out, None) /\ forallb handled out = true.

(** A button bound to [:disabled="isLoading"] whose listener is the
    probe. *)
Definition guarded_probe (slot : Page.Slot MouseEvent) : Prop :=
  (forall s, Button.given_disabled (Page.bind_props slot s) = Some (App.isLoading s))
  /\ (forall event, Page.on_click slot event = Page.testBackendConnection VITE_API_URL).

Definition tame (template : list (Page.Slot MouseEvent)) : Prop :=
  Forall (fun slot => (forall event, inert (Page.on_click slot event))
                      \/ guarded_probe slot) template.

(** Between two tasks: every button has the props its bindings evaluate
    to, and either nothing is pending and [isLoading] is false, or one
    probe is pending and [isLoading] is true. *)
Definition settled_view (template : list (Page.Slot MouseEvent))
    (pg : Page.State) : Prop :=
  length (Page.buttons pg) = length template
  /\ (forall i slot b,
        template !! i = Some slot -> Page.buttons pg !! i = Some b ->
        Button.props b
        = Button.withDefaults (Page.bind_props slot (Page.refs pg)))
  /\ ((App.isLoading (Page.refs pg) = false /\ Page.waiting pg = [])
      \/ (App.isLoading (Page.refs pg) = true
          /\ exists w n, Page.waiting pg = [w] /\ finishes_loading n w)).

End Template.

End PageInv.

(** ** Reading the outcome of a probe *)
Module Probes.
Import Eff.

(** The request a suspension waits on. *)
Definition awaited {St Req : Type} (p : Suspension St Req) : Req :=
  match p with SuspendedOn q _ => q end.

(** The refs left visible while a suspension lasts. *)
Definition shown {St Req : Type} (p : Suspension St Req) : St :=
  match p with SuspendedOn _ visible => visible end.

(** The requests a run awaited, in order. *)
Definition requests {St Out Req A : Type} (r : Outcome St Out Req A) : list Req :=
  awaited <$> suspensions r.

End Probes.

(** * Properties of the Button control *)

Import Eff.

(** Unfold one handler run down to its outcome record. *)
Ltac run_handler :=
  unfold Button.handle, Button.handleClick, Button.handleMouseLeave,
    Button.on_mouseenter, Button.on_mousedown, Button.on_mouseup;
  cbn.

(** [handleClick] writes no ref. *)
Lemma handleClick_state_unchanged (MouseEvent : Type)
    (s : Button.ControlState) (event : MouseEvent) :
  final (Button.handle (Button.listener (Button.dom_click event)) s) = s.
Proof.
  cbn [Button.listener]. run_handler.
  destruct (Button.disabled (Button.props s)); reflexivity.
Qed.

(** C1. For every state and every event, [handleClick] completes normally
    and emits exactly one [click] carrying the event it received if and
    only if [disabled] is false at the call; when [disabled] is true it
    emits nothing. *)
Theorem handleClick_emits_iff_enabled (MouseEvent : Type)
    (s : Button.ControlState) (event : MouseEvent) :
  completion (Button.handle (Button.handleClick event) s) = Js.Normal tt
  /\ (outputs (Button.handle (Button.handleClick event) s) = [Button.click event]
      <-> Button.disabled (Button.props s) = false)
  /\ (outputs (Button.handle (Button.handleClick event) s) = []
      <-> Button.disabled (Button.props s) = true).
Proof.
  run_handler.
  destruct (Button.disabled (Button.props s)); cbn;
    repeat split; intros; congruence.
Qed.

(** C9. For every state and every event, [handleClick] leaves the state
    of the component (props, [isHovered], [isPressed]) as it found it,
    whether it emits or not. *)
Theorem handleClick_preserves_state (MouseEvent : Type)
    (s : Button.ControlState) (event : MouseEvent) :
  final (Button.handle (Button.handleClick event) s) = s.
Proof.
  run_handler.
  destruct (Button.disabled (Button.props s)); reflexivity.
Qed.

(** C7. For every state, right after [handleMouseLeave] both [isHovered]
    and [isPressed] are false, whatever they were before. *)
Theorem handleMouseLeave_clears_hover_and_press (MouseEvent : Type)
    (s : Button.ControlState) :
  Button.isHovered
    (final (Button.handle (MouseEvent := MouseEvent) Button.handleMouseLeave s)) = false
  /\ Button.isPressed
       (final (Button.handle (MouseEvent := MouseEvent) Button.handleMouseLeave s)) = false.
Proof. run_handler. split; reflexivity. Qed.

(** The classes of an enabled, hovered, unpressed primary button of
    medium size. *)
Example buttonClasses_enabled_hovered :
  Button.buttonClasses
    {| Button.props := {| Button.variant := Button.primary;
                          Button.size := Button.md;
                          Button.disabled := false |};
       Button.isHovered := true;
       Button.isPressed := false |}
  = Button.baseClasses
    ++ [ Js.VStr "w-30"; Js.VStr "h-10"; Js.VStr "text-sm"; Js.VStr "rounded-lg";
         Js.VStr "bg-canvas-accent text-white cursor-pointer";
         Js.VStr "shadow-lg shadow-canvas-accent/30";
         Js.VStr "scale-102 -translate-y-0.5" ].
Proof. reflexivity. Qed.

(** Mount with the defaults, enter, press, click: one [click] with the
    event of the click is emitted, and the control is left hovered and
    pressed. *)
Example enter_down_click (MouseEvent : Type) (event : MouseEvent) :
  Button.deliver
    [Button.dom_mouseenter; Button.dom_mousedown; Button.dom_click event]
    (Button.setup Examples.no_props)
  = ({| Button.props := {| Button.variant := Button.primary;
                           Button.size := Button.md;
                           Button.disabled := false |};
        Button.isHovered := true;
        Button.isPressed := true |},
     [Button.click event]).
Proof. reflexivity. Qed.

(** C10, as the code has it.  For every state with [disabled] true,
    [buttonClasses] is made of the base classes, the classes of the size
    and the disabled colour class of the variant, and of nothing else.
    So it contains none of the hover and press classes ['scale-95'],
    ['shadow-lg shadow-canvas-accent/30'], ['shadow-lg shadow-black/10'],
    ['scale-102 -translate-y-0.5'], ['scale-101 -translate-y-0.5'], and
    [isPressed] has no effect on it.  Among the classes of the size, the
    rounding class follows [isHovered]: [sizeClasses] has no [disabled]
    guard. *)
Theorem buttonClasses_disabled_no_interaction_class (s : Button.ControlState) :
  Button.disabled (Button.props s) = true ->
  Forall (fun c => ~ In c (Button.buttonClasses s)) Button.interaction_classes
  /\ Button.buttonClasses s
     = Button.baseClasses
       ++ Button.sizeClasses s (Button.size (Button.props s))
       ++ [ match Button.variant (Button.props s) with
            | Button.primary =>
                Js.VStr "bg-gray-300 text-gray-500 cursor-not-allowed"
            | Button.secondary =>
                Js.VStr "bg-gray-100 text-gray-400 border border-gray-200 cursor-not-allowed"
            end ]
  /\ (forall b : bool,
        Button.buttonClasses (Button.set_isPressed b s) = Button.buttonClasses s).
Proof.
  destruct s as [[v sz d] h p]; cbn [Button.disabled Button.props]; intros ->.
  split; [|split].
  - destruct v, sz, h, p; vm_compute;
      repeat constructor; intuition discriminate.
  - destruct v, sz, h, p; reflexivity.
  - intros b. destruct v, sz, h, p, b; reflexivity.
Qed.

Lemma buttonClasses_disabled_no_interaction_class_witness :
  Forall (fun c => ~ In c (Button.buttonClasses
                             {| Button.props := {| Button.variant := Button.secondary;
                                                   Button.size := Button.lg;
                                                   Button.disabled := true |};
                                Button.isHovered := true;
                                Button.isPressed := true |}))
         Button.interaction_classes
  /\ Button.buttonClasses
       {| Button.props := {| Button.variant := Button.secondary;
                             Button.size := Button.lg;
                             Button.disabled := true |};
          Button.isHovered := true;
          Button.isPressed := true |}
     = Button.baseClasses
       ++ [ Js.VStr "w-40"; Js.VStr "h-12"; Js.VStr "text-base";
            Js.VStr "rounded-xl";
            Js.VStr "bg-gray-100 text-gray-400 border border-gray-200 cursor-not-allowed" ].
Proof.
  split.
  - apply buttonClasses_disabled_no_interaction_class. reflexivity.
  - refine (proj1 (proj2 (buttonClasses_disabled_no_interaction_class
                            {| Button.props := {| Button.variant := Button.secondary;
                                                  Button.size := Button.lg;
                                                  Button.disabled := true |};
                               Button.isHovered := true;
                               Button.isPressed := true |} eq_refl))).
Defined.

(** C10, as stated, fails.  A disabled control renders a hover effect:
    hovered, the control of medium size has ['rounded-lg'] where it has
    ['rounded-2xl'] when not hovered. *)
Lemma disabled_control_renders_hover_rounding :
  Button.buttonClasses
    (Button.set_isHovered true (Button.setup Examples.disabled_props))
  = Button.baseClasses
    ++ [ Js.VStr "w-30"; Js.VStr "h-10"; Js.VStr "text-sm"; Js.VStr "rounded-lg";
         Js.VStr "bg-gray-300 text-gray-500 cursor-not-allowed" ]
  /\ Button.buttonClasses
       (Button.set_isHovered false (Button.setup Examples.disabled_props))
     = Button.baseClasses
       ++ [ Js.VStr "w-30"; Js.VStr "h-10"; Js.VStr "text-sm"; Js.VStr "rounded-2xl";
            Js.VStr "bg-gray-300 text-gray-500 cursor-not-allowed" ]
  /\ Button.buttonClasses
       (Button.set_isHovered true (Button.setup Examples.disabled_props))
     <> Button.buttonClasses
          (Button.set_isHovered false (Button.setup Examples.disabled_props)).
Proof. repeat split. vm_compute. discriminate. Qed.

(** *** Hover and press along a sequence of inputs *)

Lemma deliver_cons (MouseEvent : Type) (i : Button.Input MouseEvent)
    (rest : list (Button.Input MouseEvent)) (s : Button.ControlState) :
  fst (Button.deliver (i :: rest) s)
  = fst (Button.deliver rest (final (Button.handle (Button.listener i) s))).
Proof.
  cbn [Button.deliver].
  destruct (Button.deliver rest _) as [s' later]. reflexivity.
Qed.

(** The listeners of [mouseenter] and [mousedown] do not look at
    [disabled]. *)
Lemma enter_and_down_ignore_disabled (MouseEvent : Type) (s : Button.ControlState) :
  Button.isHovered
    (final (Button.handle (MouseEvent := MouseEvent) Button.on_mouseenter s)) = true
  /\ Button.isPressed
       (final (Button.handle (MouseEvent := MouseEvent) Button.on_mousedown s)) = true.
Proof. run_handler. split; reflexivity. Qed.

(** New props leave the two refs as they are. *)
Lemma props_changed_keeps_refs (MouseEvent : Type) (given : Button.ButtonProps)
    (s : Button.ControlState) :
  Button.isHovered
    (final (Button.handle (MouseEvent := MouseEvent)
              (Button.listener (Button.props_changed given)) s))
  = Button.isHovered s
  /\ Button.isPressed
       (final (Button.handle (MouseEvent := MouseEvent)
                 (Button.listener (Button.props_changed given)) s))
     = Button.isPressed s.
Proof. split; reflexivity. Qed.





(** * Properties of the backend probe *)

(** Unfold a probe down to the first thing it depends on. *)
Ltac run_probe :=
  unfold App.probe, App.onMounted, App.testBackendConnection, try_catch_finally;
  cbn -[App.API_BASE_URL String.append pretty].

Section Probe.
Variable VITE_API_URL : option string.
Variable network : string -> Settled App.Response.
Variable others : App.Request -> App.Store -> App.Store.

(** Every failing path ends in the [catch] block. *)
Lemma probe_failure_final (s : App.Store) :
  App.ProbeFailure (network (App.status_url VITE_API_URL)) ->
  final (App.probe VITE_API_URL network others s) = App.disconnected.
Proof.
  unfold App.status_url. intros [reason E | response E Hok | response reason E Hok Hjson];
    run_probe; rewrite E; cbn -[pretty]; try rewrite Hok; cbn -[pretty];
    try rewrite Hjson; reflexivity.
Qed.

(** A 2xx response whose body parses to a value both properties can be
    read from ends in the success branch. *)
Lemma probe_success_final (s : App.Store) (response : App.Response)
    (data backend_status message : Js.Value) :
  network (App.status_url VITE_API_URL) = Fulfilled response ->
  App.ok response = true ->
  App.json response = Fulfilled data ->
  Js.get_prop data "backend_status" = Js.Normal backend_status ->
  Js.get_prop data "message" = Js.Normal message ->
  final (App.probe VITE_API_URL network others s)
  = {| App.backendStatus := backend_status;
       App.backendMessage := message;
       App.isConnected := true;
       App.isLoading := false |}.
Proof.
  unfold App.status_url. intros E Hok Hjson Hstatus Hmessage.
  run_probe. rewrite E; cbn -[pretty]. rewrite Hok; cbn -[pretty].
  rewrite Hjson; cbn -[pretty Js.get_prop].
  rewrite Hstatus; cbn -[pretty Js.get_prop].
  rewrite Hmessage. reflexivity.
Qed.

(** A 2xx response whose body parses to [null] throws at the first
    property read and ends in the [catch] block. *)
Lemma probe_null_body_final (s : App.Store) (response : App.Response) :
  network (App.status_url VITE_API_URL) = Fulfilled response ->
  App.ok response = true ->
  App.json response = Fulfilled Js.VNull ->
  final (App.probe VITE_API_URL network others s) = App.disconnected.
Proof.
  unfold App.status_url. intros E Hok Hjson.
  run_probe. rewrite E; cbn -[pretty]. rewrite Hok; cbn -[pretty].
  rewrite Hjson. reflexivity.
Qed.

End Probe.

(** C2. Every failure of the probe, whether [fetch] rejects, the status
    is not 2xx, or the body fails to parse, ends in the same state:
    status label ['disconnected'], message ['Failed to connect to
    backend'], not connected, not loading. *)
Theorem probe_failures_end_disconnected (VITE_API_URL : option string)
    (network : string -> Settled App.Response)
    (others : App.Request -> App.Store -> App.Store)
    (s : App.Store) :
  App.ProbeFailure (network (App.status_url VITE_API_URL)) ->
  final (App.probe VITE_API_URL network others s)
  = {| App.backendStatus := Js.VStr "disconnected";
       App.backendMessage := Js.VStr "Failed to connect to backend";
       App.isConnected := false;
       App.isLoading := false |}.
Proof. intros Hfail. exact (probe_failure_final _ _ _ s Hfail). Qed.

Lemma probe_failures_end_disconnected_witness :
  final (App.probe None Examples.unreachable App.quiet App.setup)
  = {| App.backendStatus := Js.VStr "disconnected";
       App.backendMessage := Js.VStr "Failed to connect to backend";
       App.isConnected := false;
       App.isLoading := false |}
  /\ final (App.probe None Examples.answers_500 App.quiet App.setup)
     = final (App.probe None Examples.unreachable App.quiet App.setup).
Proof.
  split.
  - apply probe_failures_end_disconnected.
    eapply App.transport_rejection. reflexivity.
  - rewrite !probe_failures_end_disconnected.
    + reflexivity.
    + eapply App.transport_rejection. reflexivity.
    + eapply App.http_status; reflexivity.
Defined.

(** C3. When the endpoint answers 2xx with a JSON object that has the
    fields [backend_status] and [message], the probe ends connected, with
    the status label and the message taken from these fields. *)
Theorem probe_success_takes_body_fields (VITE_API_URL : option string)
    (network : string -> Settled App.Response)
    (others : App.Request -> App.Store -> App.Store)
    (s : App.Store) (response : App.Response)
    (body : gmap string Js.Value) (backend_status message : Js.Value) :
  network (App.status_url VITE_API_URL) = Fulfilled response ->
  App.ok response = true ->
  App.json response = Fulfilled (Js.VObj body) ->
  body !! "backend_status" = Some backend_status ->
  body !! "message" = Some message ->
  final (App.probe VITE_API_URL network others s)
  = {| App.backendStatus := backend_status;
       App.backendMessage := message;
       App.isConnected := true;
       App.isLoading := false |}.
Proof.
  intros E Hok Hjson Hstatus Hmessage.
  eapply probe_success_final; eauto.
  - cbn [Js.get_prop]. rewrite Hstatus. reflexivity.
  - cbn [Js.get_prop]. rewrite Hmessage. reflexivity.
Qed.

Lemma probe_success_takes_body_fields_witness :
  final (App.probe None Examples.answers_ready App.quiet App.setup)
  = {| App.backendStatus := Js.VStr "ok";
       App.backendMessage := Js.VStr "ready";
       App.isConnected := true;
       App.isLoading := false |}.
Proof.
  eapply probe_success_takes_body_fields; reflexivity.
Defined.

(** C5, as the code has it.  For a 2xx response the body is not checked
    against a shape.  The probe ends disconnected when
    [response.json()] rejects or the body parses to [null]; for any
    other parsed value it ends connected, with the status label and the
    message set to what the properties [backend_status] and [message] of
    that value read as. *)
Theorem probe_2xx_body_outcome (VITE_API_URL : option string)
    (network : string -> Settled App.Response)
    (others : App.Request -> App.Store -> App.Store)
    (s : App.Store) (response : App.Response) :
  network (App.status_url VITE_API_URL) = Fulfilled response ->
  App.ok response = true ->
  (forall reason : Js.Value,
      App.json response = Rejected reason ->
      final (App.probe VITE_API_URL network others s) = App.disconnected)
  /\ (App.json response = Fulfilled Js.VNull ->
      final (App.probe VITE_API_URL network others s) = App.disconnected)
  /\ (forall data backend_status message : Js.Value,
         App.json response = Fulfilled data ->
         Js.get_prop data "backend_status" = Js.Normal backend_status ->
         Js.get_prop data "message" = Js.Normal message ->
         final (App.probe VITE_API_URL network others s)
         = {| App.backendStatus := backend_status;
              App.backendMessage := message;
              App.isConnected := true;
              App.isLoading := false |}).
Proof.
  intros E Hok. repeat split.
  - intros reason Hjson. apply probe_failure_final.
    eapply App.body_parse; eauto.
  - intros Hjson. eapply probe_null_body_final; eauto.
  - intros data backend_status message Hjson Hstatus Hmessage.
    eapply probe_success_final; eauto.
Qed.

Lemma probe_2xx_body_outcome_witness :
  final (App.probe None Examples.answers_empty_object App.quiet App.setup)
  = {| App.backendStatus := Js.VUndefined;
       App.backendMessage := Js.VUndefined;
       App.isConnected := true;
       App.isLoading := false |}.
Proof.
  refine (proj2 (proj2
            (probe_2xx_body_outcome None Examples.answers_empty_object App.quiet
               App.setup _ eq_refl eq_refl))
            (Js.VObj ∅) Js.VUndefined Js.VUndefined eq_refl eq_refl eq_refl).
Defined.

(** C5, as stated, fails.  A 200 response whose body is the JSON object
    [{}], which has neither field, leaves the probe connected. *)
Lemma probe_accepts_object_without_fields :
  App.ok {| App.status := 200; App.json := Fulfilled (Js.VObj ∅) |} = true
  /\ App.isConnected
       (final (App.probe None Examples.answers_empty_object App.quiet App.setup))
     = true
  /\ final (App.probe None Examples.answers_empty_object App.quiet App.setup)
     <> App.disconnected.
Proof. repeat split. discriminate. Qed.

(** C6, as the code has it.  The only ref the probe writes before the
    request has settled is [isLoading], set to true before [fetch] is
    called.  The probe waits on [fetch] and, for a 2xx response, on
    [response.json()], and on nothing else; at each wait the refs are
    those of the call with [isLoading] true, changed only by what other
    tasks did meanwhile.  For the call made at mount, with no other task
    writing, the refs shown at every wait of the call are the status
    label ['checking...'], the message ['Connecting to backend...'], not
    connected, loading. *)
Theorem probe_pending_state (VITE_API_URL : option string)
    (network : string -> Settled App.Response)
    (others : App.Request -> App.Store -> App.Store)
    (s : App.Store) :
  suspensions (App.probe VITE_API_URL network others s)
  = match network (App.status_url VITE_API_URL) with
    | Fulfilled response =>
        if App.ok response
        then [ SuspendedOn (App.fetch (App.status_url VITE_API_URL))
                 (App.set_isLoading true s);
               SuspendedOn (App.Response_json response)
                 (others (App.fetch (App.status_url VITE_API_URL))
                    (App.set_isLoading true s)) ]
        else [ SuspendedOn (App.fetch (App.status_url VITE_API_URL))
                 (App.set_isLoading true s) ]
    | Rejected _ =>
        [ SuspendedOn (App.fetch (App.status_url VITE_API_URL))
            (App.set_isLoading true s) ]
    end
  /\ suspensions (run (App.world network App.quiet)
                    (App.onMounted VITE_API_URL) App.setup) <> []
  /\ Forall (fun p =>
               Probes.shown p
               = {| App.backendStatus := Js.VStr "checking...";
                    App.backendMessage := Js.VStr "Connecting to backend...";
                    App.isConnected := false;
                    App.isLoading := true |})
            (suspensions (run (App.world network App.quiet)
                            (App.onMounted VITE_API_URL) App.setup)).
Proof.
  unfold App.status_url. split; [|split]; run_probe.
  - destruct (network _) as [response|reason]; cbn -[pretty]; [|reflexivity].
    destruct (App.ok response); cbn -[pretty]; [|reflexivity].
    destruct (App.json response) as [data|reason]; cbn -[pretty]; [|reflexivity].
    destruct data; reflexivity.
  - discriminate.
  - destruct (network _) as [response|reason]; cbn -[pretty];
      [|repeat constructor].
    destruct (App.ok response); cbn -[pretty]; [|repeat constructor].
    destruct (App.json response) as [data|reason]; cbn -[pretty];
      [|repeat constructor].
    destruct data; repeat constructor.
Qed.

(** C6, as stated, fails.  A second call of the probe, made after a first
    one has failed, shows the message of the failure while its request is
    pending, not ['Connecting to backend...']. *)
Lemma second_probe_shows_previous_message :
  suspensions
    (App.probe None Examples.answers_500 App.quiet
       (final (App.probe None Examples.answers_500 App.quiet App.setup)))
  = [ SuspendedOn (App.fetch "http://localhost:8000/api/status")
        {| App.backendStatus := Js.VStr "disconnected";
           App.backendMessage := Js.VStr "Failed to connect to backend";
           App.isConnected := false;
           App.isLoading := true |} ].
Proof. reflexivity. Qed.

(** C8. Whatever the outcome of the request (a 2xx answer, another
    status, a rejected [fetch], a rejected [response.json()]), and
    whatever body it carries, a call of the probe completes normally,
    throwing nothing to its caller, and ends with [isLoading] false. *)
Theorem probe_always_completes (VITE_API_URL : option string)
    (network : string -> Settled App.Response)
    (others : App.Request -> App.Store -> App.Store)
    (s : App.Store) :
  completion (App.probe VITE_API_URL network others s) = Js.Normal tt
  /\ App.isLoading (final (App.probe VITE_API_URL network others s)) = false.
Proof.
  run_probe.
  destruct (network _) as [response|reason]; cbn -[pretty]; [|split; reflexivity].
  destruct (App.ok response); cbn -[pretty]; [|split; reflexivity].
  destruct (App.json response) as [data|reason]; cbn -[pretty]; [|split; reflexivity].
  destruct data; cbn; split; reflexivity.
Qed.

(** * Further properties of the Button control *)

(** X1. Whatever the state, every entry of [buttonClasses] is a
    non-empty string: no [false] left by a guard survives
    [filter(Boolean)]. *)
Theorem buttonClasses_only_nonempty_strings (s : Button.ControlState) :
  Forall (fun v => exists name, v = Js.VStr name /\ name <> "")
         (Button.buttonClasses s).
Proof.
  destruct s as [[v sz d] h p].
  destruct v, sz, d, h, p; vm_compute;
    repeat constructor; eexists; (split; [reflexivity | discriminate]).
Qed.

(** X2. The press class ['scale-95'] is rendered exactly when the
    control is enabled and pressed. *)
Theorem press_class_iff (s : Button.ControlState) :
  In (Js.VStr "scale-95") (Button.buttonClasses s)
  <-> Button.disabled (Button.props s) = false /\ Button.isPressed s = true.
Proof.
  destruct s as [[v sz d] h p].
  destruct v, sz, d, h, p; vm_compute; intuition discriminate.
Qed.

(** X3. The lift class of the variant (['scale-102 -translate-y-0.5']
    for primary, ['scale-101 -translate-y-0.5'] for secondary) is rendered
    exactly when the control is enabled, hovered and not pressed; the
    lift class of the other variant is never rendered. *)
Theorem lift_class_iff (s : Button.ControlState) :
  (In (Js.VStr "scale-102 -translate-y-0.5") (Button.buttonClasses s)
   <-> Button.variant (Button.props s) = Button.primary
       /\ Button.disabled (Button.props s) = false
       /\ Button.isHovered s = true /\ Button.isPressed s = false)
  /\ (In (Js.VStr "scale-101 -translate-y-0.5") (Button.buttonClasses s)
      <-> Button.variant (Button.props s) = Button.secondary
          /\ Button.disabled (Button.props s) = false
          /\ Button.isHovered s = true /\ Button.isPressed s = false).
Proof.
  destruct s as [[v sz d] h p].
  destruct v, sz, d, h, p; vm_compute; intuition discriminate.
Qed.

(** X4. On a disabled control [isPressed] has no effect on the classes. *)
Theorem disabled_classes_ignore_press (s : Button.ControlState) (b : bool) :
  Button.disabled (Button.props s) = true ->
  Button.buttonClasses (Button.set_isPressed b s) = Button.buttonClasses s.
Proof.
  destruct s as [[v sz d] h p]; cbn; intros ->.
  destruct v, sz, h, p, b; reflexivity.
Qed.

Lemma disabled_classes_ignore_press_witness :
  Button.buttonClasses
    (Button.set_isPressed true (Button.setup Examples.disabled_props))
  = Button.buttonClasses (Button.setup Examples.disabled_props).
Proof. apply disabled_classes_ignore_press. reflexivity. Defined.

(** X5. [isHovered] changes the classes in every state, disabled or
    not: the rounding class of [sizeClasses] has no [disabled] guard. *)
Theorem hover_always_changes_classes (s : Button.ControlState) :
  Button.buttonClasses (Button.set_isHovered true s)
  <> Button.buttonClasses (Button.set_isHovered false s).
Proof.
  destruct s as [[v sz d] h p].
  destruct v, sz, d, p; vm_compute; discriminate.
Qed.

(** *** Sequences of inputs *)

(** The state of [disabled] after one input. *)
Lemma disabled_after_input (MouseEvent : Type) (i : Button.Input MouseEvent)
    (s : Button.ControlState) :
  Button.disabled
    (Button.props (final (Button.handle (Button.listener i) s)))
  = match i with
    | Button.props_changed given => Button.disabled (Button.withDefaults given)
    | _ => Button.disabled (Button.props s)
    end.
Proof.
  destruct i; try reflexivity.
  rewrite handleClick_state_unchanged. reflexivity.
Qed.

(** X6. For every sequence of inputs, new props included, the [click]
    notifications emitted are exactly the clicks received while
    [disabled] was false, in the order received: none is dropped,
    duplicated or invented. *)
Theorem emitted_are_enabled_clicks (MouseEvent : Type)
    (inputs : list (Button.Input MouseEvent)) (s : Button.ControlState) :
  snd (Button.deliver inputs s)
  = Traces.enabled_clicks (Button.disabled (Button.props s)) inputs.
Proof.
  revert s. induction inputs as [|i rest IH]; intros s; [reflexivity|].
  cbn [Button.deliver].
  specialize (IH (final (Button.handle (Button.listener i) s))).
  rewrite disabled_after_input in IH.
  destruct (Button.deliver rest _) as [s' later]. cbn [snd] in *. subst later.
  destruct i; try reflexivity.
  cbn [Button.listener Traces.enabled_clicks]. run_handler.
  destruct (Button.disabled (Button.props s)); reflexivity.
Qed.

(** X7. DOM events never change the props: after any sequence of inputs
    without new props from the parent, [variant], [size] and [disabled]
    are what they were. *)
Theorem dom_events_keep_props (MouseEvent : Type)
    (inputs : list (Button.Input MouseEvent)) (s : Button.ControlState) :
  forallb Traces.is_dom inputs = true ->
  Button.props (fst (Button.deliver inputs s)) = Button.props s.
Proof.
  revert s. induction inputs as [|i rest IH]; intros s Hdom; [reflexivity|].
  cbn [forallb] in Hdom. apply andb_prop in Hdom as [Hi Hrest].
  rewrite deliver_cons, IH by exact Hrest.
  destruct i; try reflexivity; try discriminate.
  rewrite handleClick_state_unchanged. reflexivity.
Qed.

Lemma dom_events_keep_props_witness :
  Button.props
    (fst (Button.deliver (MouseEvent := unit)
            [Button.dom_mouseenter; Button.dom_mousedown; Button.dom_click tt;
             Button.dom_mouseup; Button.dom_mouseleave]
            (Button.setup Examples.disabled_props)))
  = Button.props (Button.setup Examples.disabled_props).
Proof. apply dom_events_keep_props. reflexivity. Defined.

(** * Further properties of the backend probe *)

(** Case analysis on everything a probe depends on. *)
Ltac probe_cases network :=
  run_probe;
  destruct (network _) as [?response|?reason] eqn:?Hnet; cbn -[pretty];
    [ destruct (App.ok response) eqn:?Hok; cbn -[pretty];
      [ destruct (App.json response) as [?data|?reason] eqn:?Hjson; cbn -[pretty];
        [ destruct data; cbn | ]
      | ]
    | ].

(** X8. The refs a probe ends with depend on the outcome of the request
    only: not on the refs at the call, and not on what other tasks wrote
    while it was pending.  Every probe overwrites all four refs. *)
Theorem probe_final_depends_on_network_only (VITE_API_URL : option string)
    (network : string -> Settled App.Response)
    (others : App.Request -> App.Store -> App.Store) (s : App.Store) :
  final (App.probe VITE_API_URL network others s)
  = final (App.probe VITE_API_URL network App.quiet App.setup).
Proof. probe_cases network; reflexivity. Qed.

(** X9. A probe ends with [isConnected] true exactly when [fetch] is
    fulfilled with a 2xx response whose body parses to a value other
    than [null]. *)
Theorem probe_connected_iff (VITE_API_URL : option string)
    (network : string -> Settled App.Response)
    (others : App.Request -> App.Store -> App.Store) (s : App.Store) :
  App.isConnected (final (App.probe VITE_API_URL network others s)) = true
  <-> exists (response : App.Response) (data : Js.Value),
        network (App.status_url VITE_API_URL) = Fulfilled response
        /\ App.ok response = true
        /\ App.json response = Fulfilled data
        /\ data <> Js.VNull /\ data <> Js.VUndefined.
Proof.
  unfold App.status_url.
  split.
  - probe_cases network; intros H; try discriminate H;
      (eexists _, _; repeat split; eauto; discriminate).
  - intros (response & data & E & Hok & Hjson & Hnull & Hundef).
    run_probe. rewrite E; cbn -[pretty]. rewrite Hok; cbn -[pretty].
    rewrite Hjson; cbn -[pretty].
    destruct data; try reflexivity; congruence.
Qed.

(** X10. A probe makes exactly one [fetch], to the status URL, and reads
    the body, once, only when the response is 2xx: after a rejected
    [fetch] or another status nothing more is awaited. *)
Theorem probe_requests (VITE_API_URL : option string)
    (network : string -> Settled App.Response)
    (others : App.Request -> App.Store -> App.Store) (s : App.Store) :
  Probes.requests (App.probe VITE_API_URL network others s)
  = match network (App.status_url VITE_API_URL) with
    | Fulfilled response =>
        if App.ok response
        then [App.fetch (App.status_url VITE_API_URL); App.Response_json response]
        else [App.fetch (App.status_url VITE_API_URL)]
    | Rejected _ => [App.fetch (App.status_url VITE_API_URL)]
    end.
Proof.
  unfold App.status_url, Probes.requests.
  probe_cases network; reflexivity.
Qed.

(** X11. A probe either ends connected and logs nothing, or ends with the
    refs of a failure and logs exactly one [console.error] entry, with
    the text ['Backend connection failed:'] and the value caught. *)
Theorem probe_logs_iff_disconnected (VITE_API_URL : option string)
    (network : string -> Settled App.Response)
    (others : App.Request -> App.Store -> App.Store) (s : App.Store) :
  (App.isConnected (final (App.probe VITE_API_URL network others s)) = true
   /\ outputs (App.probe VITE_API_URL network others s) = [])
  \/ (final (App.probe VITE_API_URL network others s) = App.disconnected
      /\ exists error : Js.Value,
           outputs (App.probe VITE_API_URL network others s)
           = [App.console_error [Js.VStr "Backend connection failed:"; error]]).
Proof.
  probe_cases network;
    solve [ left; split; reflexivity
          | right; split; [reflexivity | eexists; reflexivity] ].
Qed.

(** X12. For a response with a status outside 200-299 the value logged
    is an [Error] whose message is ['HTTP '] followed by the status code
    in decimal: the code reaches the console, though not the refs. *)
Theorem probe_logs_http_status (VITE_API_URL : option string)
    (network : string -> Settled App.Response)
    (others : App.Request -> App.Store -> App.Store) (s : App.Store)
    (response : App.Response) :
  network (App.status_url VITE_API_URL) = Fulfilled response ->
  App.ok response = false ->
  outputs (App.probe VITE_API_URL network others s)
  = [App.console_error
       [Js.VStr "Backend connection failed:";
        Js.VError "Error" ("HTTP " +:+ pretty (App.status response))]].
Proof.
  unfold App.status_url. intros E Hok.
  run_probe. rewrite E; cbn -[pretty]. rewrite Hok. reflexivity.
Qed.

Lemma probe_logs_http_status_witness :
  outputs (App.probe None Examples.answers_500 App.quiet App.setup)
  = [App.console_error
       [Js.VStr "Backend connection failed:"; Js.VError "Error" "HTTP 500"]].
Proof.
  exact (probe_logs_http_status None Examples.answers_500 App.quiet App.setup
           _ eq_refl eq_refl).
Defined.

(** X13. When [fetch] or [response.json()] rejects, the reason of the
    rejection is what is logged, unchanged. *)
Theorem probe_logs_rejection_reason (VITE_API_URL : option string)
    (network : string -> Settled App.Response)
    (others : App.Request -> App.Store -> App.Store) (s : App.Store)
    (reason : Js.Value) :
  network (App.status_url VITE_API_URL) = Rejected reason
  \/ (exists response : App.Response,
        network (App.status_url VITE_API_URL) = Fulfilled response
        /\ App.ok response = true /\ App.json response = Rejected reason) ->
  outputs (App.probe VITE_API_URL network others s)
  = [App.console_error [Js.VStr "Backend connection failed:"; reason]].
Proof.
  unfold App.status_url. intros [E | (response & E & Hok & Hjson)];
    run_probe; rewrite E; cbn -[pretty]; [reflexivity|].
  rewrite Hok; cbn -[pretty]. rewrite Hjson. reflexivity.
Qed.

Lemma probe_logs_rejection_reason_witness :
  outputs (App.probe None Examples.unreachable App.quiet App.setup)
  = [App.console_error
       [Js.VStr "Backend connection failed:";
        Js.VError "TypeError" "Failed to fetch"]].
Proof.
  apply probe_logs_rejection_reason. left. reflexivity.
Defined.

Lemma string_length_app (a b : string) :
  String.length (a +:+ b) = (String.length a + String.length b)%nat.
Proof.
  induction a as [|c a IH]; [reflexivity|].
  change (S (String.length (a +:+ b)) = S (String.length a + String.length b)).
  f_equal. exact IH.
Qed.

(** X14. The base URL is never empty: it is the configured
    [VITE_API_URL], or ['http://localhost:8000'] when that is undefined
    or the empty string.  So the probe never requests the relative URL
    ['/api/status']. *)
Theorem API_BASE_URL_configured_or_default (VITE_API_URL : option string) :
  App.API_BASE_URL VITE_API_URL <> ""
  /\ (VITE_API_URL = Some (App.API_BASE_URL VITE_API_URL)
      \/ ((VITE_API_URL = None \/ VITE_API_URL = Some "")
          /\ App.API_BASE_URL VITE_API_URL = "http://localhost:8000"))
  /\ App.status_url VITE_API_URL <> "/api/status".
Proof.
  unfold App.status_url, App.API_BASE_URL.
  destruct VITE_API_URL as [url|];
    [|repeat split; [discriminate | right; split; [left|]; reflexivity | discriminate]].
  destruct (String.eqb_spec url "") as [->|Hne].
  - repeat split; [discriminate | right; split; [right|]; reflexivity | discriminate].
  - repeat split; [exact Hne | left; reflexivity |].
    destruct url as [|c rest]; [congruence|].
    intros H. apply (f_equal String.length) in H.
    rewrite string_length_app in H. cbn in H. lia.
Qed.

(** * The page: buttons and probe together *)

(** What a button emits for one DOM event. *)
Lemma button_emits (MouseEvent : Type) (d : Page.Dom MouseEvent)
    (b : Button.ControlState) :
  outputs (Button.handle (Button.listener (Page.to_input d)) b)
  = match d with
    | Page.ev_click event =>
        if Button.disabled (Button.props b) then [] else [Button.click event]
    | _ => []
    end.
Proof.
  destruct d; try reflexivity.
  cbn [Page.to_input Button.listener]. run_handler.
  destruct (Button.disabled (Button.props b)); reflexivity.
Qed.

(** The probe, called from any state, sets [isLoading] and waits on the
    [fetch] of the status URL; from there it completes within two
    settlements. *)
Lemma probe_first_wait (VITE_API_URL : option string) (s : App.Store) :
  exists w,
    Page.advance (Page.testBackendConnection VITE_API_URL) s
    = (App.set_isLoading true s, [], Some w)
    /\ PageInv.finishes_loading 2 w
    /\ PageInv.pending_request w = App.fetch (App.status_url VITE_API_URL).
Proof.
  eexists. split; [|split].
  - unfold Page.testBackendConnection, App.testBackendConnection, try_catch_finally.
    cbn -[App.API_BASE_URL String.append pretty]. reflexivity.
  - intros network s1. cbn -[App.API_BASE_URL String.append pretty].
    destruct (network _) as [response|reason]; cbn -[pretty]; [|split; reflexivity].
    destruct (App.ok response); cbn -[pretty]; [|split; reflexivity].
    repeat split.
    intros network2 s2. cbn -[pretty].
    destruct (App.json response) as [data|reason]; cbn -[pretty]; [|split; reflexivity].
    destruct data; cbn; split; reflexivity.
  - reflexivity.
Qed.

Section PageFacts.
Variable VITE_API_URL : option string.
Context {MouseEvent : Type}.
Variable template : list (Page.Slot MouseEvent).
Hypothesis template_tame : PageInv.tame VITE_API_URL template.

Lemma render_props (s : App.Store) (bs : list Button.ControlState)
    (i : nat) (slot : Page.Slot MouseEvent) (b : Button.ControlState) :
  template !! i = Some slot ->
  Page.render template s bs !! i = Some b ->
  Button.props b = Button.withDefaults (Page.bind_props slot s).
Proof.
  unfold Page.render. intros Hslot Hb.
  rewrite lookup_zip_with, Hslot in Hb. cbn in Hb.
  destruct (bs !! i); cbn in Hb; [|discriminate].
  injection Hb as <-. reflexivity.
Qed.

Lemma render_length (s : App.Store) (bs : list Button.ControlState) :
  length bs = length template ->
  length (Page.render template s bs) = length template.
Proof.
  unfold Page.render. intros Hlen. rewrite length_zip_with. lia.
Qed.

(** One task keeps the view, and throws nothing out of a listener. *)
Lemma step_keeps_view (e : Page.Event MouseEvent) (pg : Page.State) :
  PageInv.settled_view template pg ->
  PageInv.settled_view template (fst (Page.step template e pg))
  /\ forallb PageInv.handled (snd (Page.step template e pg)) = true.
Proof.
  intros (Hlen & Hprops & Hstate).
  destruct e as [target d | n network]; cbn [Page.step].
  - destruct (template !! target) as [slot|] eqn:Hslot;
      [|split; [repeat split; assumption | reflexivity]].
    destruct (Page.buttons pg !! target) as [b|] eqn:Hb;
      [|split; [repeat split; assumption | reflexivity]].
    rewrite button_emits.
    assert (Hquiet :
      PageInv.settled_view template
        {| Page.refs := Page.refs pg;
           Page.buttons :=
             Page.render template (Page.refs pg)
               (<[target := final (Button.handle
                                     (Button.listener (Page.to_input d)) b)]>
                  (Page.buttons pg));
           Page.waiting := Page.waiting pg ++ [] |}).
    { repeat split; cbn.
      - apply render_length. rewrite length_insert. exact Hlen.
      - intros i slot' b'. apply render_props.
      - rewrite app_nil_r. exact Hstate. }
    assert (Hclick : forall event,
      Button.disabled (Button.props b) = false ->
      let '(s', out, ws) := Page.notify slot [Button.click event] (Page.refs pg) in
      PageInv.settled_view template
        {| Page.refs := s';
           Page.buttons :=
             Page.render template s'
               (<[target := final (Button.handle
                                     (Button.listener (Page.to_input d)) b)]>
                  (Page.buttons pg));
           Page.waiting := Page.waiting pg ++ ws |}
      /\ forallb PageInv.handled out = true).
    { intros event Hon. cbn [Page.notify].
      pose proof (proj1 (Forall_lookup _ _) template_tame target slot Hslot)
        as [Hinert | [Hbind Hprobe]].
      - destruct (Hinert event (Page.refs pg)) as (out & -> & Hout).
        cbn. split; [exact Hquiet | rewrite app_nil_r; exact Hout].
      - rewrite Hprobe.
        destruct (probe_first_wait VITE_API_URL (Page.refs pg))
          as (w & -> & Hw & _).
        rewrite (Hprops target slot b Hslot Hb) in Hon.
        unfold Button.withDefaults in Hon; cbn in Hon.
        rewrite Hbind in Hon; cbn in Hon.
        destruct Hstate as [[_ Hidle] | [Hloading _]]; [|congruence].
        cbn. rewrite Hidle. split; [|reflexivity].
        repeat split; cbn.
        + apply render_length. rewrite length_insert. exact Hlen.
        + intros i slot' b'. apply render_props.
        + right. split; [reflexivity|]. eauto. }
    destruct d as [event| | | |]; try (split; [exact Hquiet | reflexivity]).
    destruct (Button.disabled (Button.props b)) eqn:Hoff;
      [split; [exact Hquiet | reflexivity]|].
    specialize (Hclick event eq_refl).
    destruct (Page.notify slot [Button.click event] (Page.refs pg)) as [[s' out] ws].
    exact Hclick.
  - destruct (Page.waiting pg !! n) as [w|] eqn:Hw;
      [|split; [repeat split; assumption | reflexivity]].
    destruct Hstate as [[_ Hidle] | (Hloading & w0 & fuel & Hone & Hfin)].
    { rewrite Hidle in Hw. discriminate. }
    rewrite Hone in Hw. destruct n as [|n]; [|discriminate].
    injection Hw as <-. rewrite Hone.
    destruct fuel as [|fuel]; [contradiction|].
    specialize (Hfin network (Page.refs pg)).
    destruct (Page.resume network w0 (Page.refs pg)) as [[s' out] [w'|]]; cbn.
    + destruct Hfin as (-> & -> & Hnext). split; [|reflexivity].
      repeat split; cbn.
      * apply render_length. exact Hlen.
      * intros i slot' b'. apply render_props.
      * right. split; [exact Hloading|]. eauto.
    + destruct Hfin as (Hdone & Hout). split; [|exact Hout].
      repeat split; cbn.
      * apply render_length. exact Hlen.
      * intros i slot' b'. apply render_props.
      * left. split; [exact Hdone | reflexivity].
Qed.

(** Mounting establishes the view, with the probe of [onMounted]
    pending. *)
Lemma mount_view :
  PageInv.settled_view template (fst (Page.mount VITE_API_URL template))
  /\ forallb PageInv.handled (snd (Page.mount VITE_API_URL template)) = true.
Proof.
  unfold Page.mount, Page.onMounted.
  destruct (probe_first_wait VITE_API_URL App.setup) as (w & -> & Hw & _).
  cbn. split; [|reflexivity]. repeat split; cbn.
  - apply render_length. rewrite length_fmap. reflexivity.
  - intros i slot b. apply render_props.
  - right. split; [reflexivity|]. eauto.
Qed.

(** Every state the page reaches satisfies the view. *)
Lemma after_keeps_view (events : list (Page.Event MouseEvent)) (pg : Page.State * list Page.Effect) :
  PageInv.settled_view template (fst pg) ->
  forallb PageInv.handled (snd pg) = true ->
  PageInv.settled_view template (fst (Page.after template events pg))
  /\ forallb PageInv.handled (snd (Page.after template events pg)) = true.
Proof.
  revert pg. induction events as [|e rest IH]; intros [pg out] Hview Hout;
    [split; assumption|].
  cbn [Page.after fst snd] in *.
  destruct (step_keeps_view e pg Hview) as [Hview' Hout'].
  destruct (Page.step template e pg) as [pg' out']. cbn [fst snd] in *.
  apply IH; cbn [fst snd]; [exact Hview'|].
  rewrite forallb_app, Hout, Hout'. reflexivity.
Qed.

Lemma reachable_view (events : list (Page.Event MouseEvent)) :
  PageInv.settled_view template
    (fst (Page.after template events (Page.mount VITE_API_URL template)))
  /\ forallb PageInv.handled
       (snd (Page.after template events (Page.mount VITE_API_URL template))) = true.
Proof.
  destruct mount_view as [Hview Hout].
  apply after_keeps_view; assumption.
Qed.

End PageFacts.

(** The two templates of the source are tame. *)
Lemma status_page_tame (VITE_API_URL : option string) (window_defined : bool)
    (MouseEvent : Type) :
  PageInv.tame VITE_API_URL
    (Page.status_page (MouseEvent := MouseEvent) VITE_API_URL window_defined).
Proof.
  unfold PageInv.tame, Page.status_page.
  apply Forall_cons_2; [|apply Forall_cons_2; [|apply Forall_cons_2; [|apply Forall_nil_2]]].
  - right. split; reflexivity.
  - left. intros event s. cbn. eexists. split; reflexivity.
  - left. intros event s. cbn. unfold Page.openApiDocs.
    destruct window_defined; eexists; split; reflexivity.
Qed.

Lemma docs_page_tame (VITE_API_URL : option string) (window_defined : bool)
    (MouseEvent : Type) :
  PageInv.tame VITE_API_URL
    (Page.docs_page (MouseEvent := MouseEvent) VITE_API_URL window_defined).
Proof.
  unfold PageInv.tame, Page.docs_page.
  apply Forall_cons_2; [|apply Forall_nil_2].
  left. intros event s. cbn. unfold Page.openApiDocs.
  destruct window_defined; eexists; split; reflexivity.
Qed.

Lemma after_app (MouseEvent : Type)
    (template : list (Page.Slot MouseEvent))
    (first second : list (Page.Event MouseEvent)) (pg : Page.State * list Page.Effect) :
  Page.after template (first ++ second) pg
  = Page.after template second (Page.after template first pg).
Proof.
  revert pg. induction first as [|e rest IH]; intros pg; [reflexivity|].
  cbn [app Page.after]. destruct (Page.step template e (fst pg)). apply IH.
Qed.

(** X15. On the page with the test button, when every DOM event on a
    button and every settlement of a pending request comes in a task of
    its own (so that Vue has re-rendered the buttons before the next
    one), in every state reached from mount at most one probe is pending,
    and [isLoading] is true exactly while one is.  Clicks dispatched
    within one task are outside this statement: see X26. *)
Theorem status_page_probes_never_overlap (VITE_API_URL : option string)
    (window_defined : bool) (MouseEvent : Type)
    (events : list (Page.Event MouseEvent)) :
  length (Page.waiting
            (fst (Page.status_page_after VITE_API_URL window_defined events)))
  = if App.isLoading
         (Page.refs
            (fst (Page.status_page_after VITE_API_URL window_defined events)))
    then 1%nat else 0%nat.
Proof.
  unfold Page.status_page_after.
  destruct (reachable_view VITE_API_URL _
              (status_page_tame VITE_API_URL window_defined MouseEvent) events)
    as [(_ & _ & [[-> ->] | (-> & w & n & -> & _)]) _]; reflexivity.
Qed.


(** The refs after a click on the test button of a reachable page. *)
Lemma test_click_refs (VITE_API_URL : option string)
    (window_defined : bool) (MouseEvent : Type)
    (events : list (Page.Event MouseEvent)) (event : MouseEvent) :
  Page.refs
    (fst (Page.step (Page.status_page VITE_API_URL window_defined)
            (Page.dom 0 (Page.ev_click event))
            (fst (Page.status_page_after VITE_API_URL window_defined events))))
  = if App.isLoading
         (Page.refs (fst (Page.status_page_after VITE_API_URL window_defined events)))
    then Page.refs (fst (Page.status_page_after VITE_API_URL window_defined events))
    else App.set_isLoading true
           (Page.refs (fst (Page.status_page_after VITE_API_URL window_defined events))).
Proof.
  unfold Page.status_page_after.
  destruct (reachable_view VITE_API_URL _
              (status_page_tame VITE_API_URL window_defined MouseEvent) events)
    as [(Hlen & Hprops & Hstate) _].
  set (pg := fst (Page.after _ events _)) in *.
  destruct (Page.buttons pg) as [|b bs] eqn:Hbs; [discriminate Hlen|].
  specialize (Hprops 0%nat _ b eq_refl eq_refl).
  unfold Button.withDefaults in Hprops. cbn in Hprops.
  cbn [Page.step Page.status_page lookup list_lookup]. rewrite Hbs.
  cbn [lookup list_lookup]. rewrite button_emits, Hprops. cbn [Button.disabled].
  destruct (App.isLoading (Page.refs pg)); [reflexivity|].
  cbn [Page.notify Page.on_click].
  destruct (probe_first_wait VITE_API_URL (Page.refs pg)) as (w & -> & _ & _).
  reflexivity.
Qed.

(** X17. On the page with the test button, in any state reached from
    mount by tasks delivering one event each, a click on the test button
    that comes in a task of its own does nothing while a probe is pending
    (no ref changes, no request starts); otherwise it starts exactly one
    probe: [isLoading] becomes true and one [fetch] of the status URL is
    pending.  A click dispatched in the same task as another one is
    outside this statement: see X26. *)
Theorem test_button_click (VITE_API_URL : option string)
    (window_defined : bool) (MouseEvent : Type)
    (events : list (Page.Event MouseEvent)) (event : MouseEvent) :
  let pg := fst (Page.status_page_after VITE_API_URL window_defined events) in
  let next :=
    Page.step (Page.status_page VITE_API_URL window_defined)
      (Page.dom 0 (Page.ev_click event)) pg in
  snd next = []
  /\ if App.isLoading (Page.refs pg)
     then Page.refs (fst next) = Page.refs pg
          /\ Page.waiting (fst next) = Page.waiting pg
     else Page.refs (fst next) = App.set_isLoading true (Page.refs pg)
          /\ PageInv.pending_request <$> Page.waiting (fst next)
             = [App.fetch (App.status_url VITE_API_URL)].
Proof.
  intros pg next. subst pg next. unfold Page.status_page_after.
  destruct (reachable_view VITE_API_URL _
              (status_page_tame VITE_API_URL window_defined MouseEvent) events)
    as [(Hlen & Hprops & Hstate) _].
  set (pg := fst (Page.after _ events _)) in *.
  destruct (Page.buttons pg) as [|b bs] eqn:Hbs; [discriminate Hlen|].
  specialize (Hprops 0%nat _ b eq_refl eq_refl).
  unfold Button.withDefaults in Hprops. cbn in Hprops.
  cbn [Page.step Page.status_page lookup list_lookup]. rewrite Hbs.
  cbn [lookup list_lookup]. rewrite button_emits, Hprops. cbn [Button.disabled].
  destruct Hstate as [[Hidle Hnone] | [Hloading _]].
  - rewrite Hidle. cbn [Page.notify Page.on_click].
    destruct (probe_first_wait VITE_API_URL (Page.refs pg)) as (w & -> & _ & Hreq).
    cbn. rewrite Hnone. cbn. rewrite Hreq. repeat split.
  - rewrite Hloading. cbn. rewrite app_nil_r. repeat split.
Qed.

(** X26. On the page with the test button, two clicks on it dispatched
    within one task, when no probe is pending, start two probes: the
    button has not been re-rendered between them, so the second click
    still finds [disabled] false, and two [fetch]es of the status URL are
    pending at once. *)
Theorem same_task_clicks_start_two_probes (VITE_API_URL : option string)
    (window_defined : bool) (MouseEvent : Type)
    (events : list (Page.Event MouseEvent)) (first second : MouseEvent) :
  App.isLoading
    (Page.refs (fst (Page.status_page_after VITE_API_URL window_defined events)))
  = false ->
  PageInv.pending_request
  <$> Page.waiting
        (fst (Page.dispatch (Page.status_page VITE_API_URL window_defined) 0
                (Page.ev_click second)
                (fst (Page.dispatch (Page.status_page VITE_API_URL window_defined) 0
                        (Page.ev_click first)
                        (fst (Page.status_page_after VITE_API_URL window_defined
                                events))))))
  = [ App.fetch (App.status_url VITE_API_URL);
      App.fetch (App.status_url VITE_API_URL) ].
Proof.
  unfold Page.status_page_after. intros Hidle.
  destruct (reachable_view VITE_API_URL _
              (status_page_tame VITE_API_URL window_defined MouseEvent) events)
    as [(Hlen & Hprops & Hstate) _].
  set (pg := fst (Page.after _ events _)) in *.
  destruct (Page.buttons pg) as [|b bs] eqn:Hbs; [discriminate Hlen|].
  specialize (Hprops 0%nat _ b eq_refl eq_refl).
  unfold Button.withDefaults in Hprops. cbn in Hprops.
  destruct Hstate as [[_ Hnone] | [Hloading _]]; [|congruence].
  unfold Page.dispatch at 2.
  cbn [Page.status_page lookup list_lookup]. rewrite Hbs.
  cbn [lookup list_lookup]. rewrite button_emits, Hprops, Hidle.
  cbn [Button.disabled Page.notify Page.on_click].
  destruct (probe_first_wait VITE_API_URL (Page.refs pg)) as (w1 & -> & _ & Hreq1).
  cbn [fst snd option_list app]. rewrite Hnone.
  unfold Page.dispatch.
  cbn [Page.status_page lookup list_lookup Page.buttons Page.refs Page.waiting
       insert list_insert].
  rewrite button_emits. cbn [Page.to_input].
  rewrite handleClick_state_unchanged, Hprops, Hidle.
  cbn [Button.disabled Page.notify Page.on_click].
  destruct (probe_first_wait VITE_API_URL (App.set_isLoading true (Page.refs pg)))
    as (w2 & -> & _ & Hreq2).
  cbn. rewrite Hreq1, Hreq2. reflexivity.
Qed.

Lemma same_task_clicks_start_two_probes_witness :
  PageInv.pending_request
  <$> Page.waiting
        (fst (Page.dispatch (MouseEvent := unit) (Page.status_page None true) 0
                (Page.ev_click tt)
                (fst (Page.dispatch (Page.status_page None true) 0
                        (Page.ev_click tt)
                        (fst (Page.status_page_after (MouseEvent := unit) None true
                                [Page.settled 0 Examples.answers_500]))))))
  = [ App.fetch "http://localhost:8000/api/status";
      App.fetch "http://localhost:8000/api/status" ].
Proof.
  apply (same_task_clicks_start_two_probes None true unit
           [Page.settled 0 Examples.answers_500] tt tt).
  reflexivity.
Defined.

(** X18. On the page with the single button, a click on it in any
    reachable state opens nothing while the probe of mount is pending;
    once that probe has completed, whatever its outcome, it opens the
    documentation, [API_BASE_URL + '/docs'], in a new tab (if there is a
    [window]).  In both cases no ref changes and no request starts. *)
Theorem docs_button_click (VITE_API_URL : option string)
    (window_defined : bool) (MouseEvent : Type)
    (events : list (Page.Event MouseEvent)) (event : MouseEvent) :
  let pg := fst (Page.docs_page_after VITE_API_URL window_defined events) in
  let next :=
    Page.step (Page.docs_page VITE_API_URL window_defined)
      (Page.dom 0 (Page.ev_click event)) pg in
  Page.refs (fst next) = Page.refs pg
  /\ Page.waiting (fst next) = Page.waiting pg
  /\ snd next
     = if App.isLoading (Page.refs pg) then []
       else if window_defined
            then [Page.window_open (App.API_BASE_URL VITE_API_URL +:+ "/docs")
                    "_blank"]
            else [].
Proof.
  intros pg next. subst pg next. unfold Page.docs_page_after.
  destruct (reachable_view VITE_API_URL _
              (docs_page_tame VITE_API_URL window_defined MouseEvent) events)
    as [(Hlen & Hprops & _) _].
  set (pg := fst (Page.after _ events _)) in *.
  destruct (Page.buttons pg) as [|b bs] eqn:Hbs; [discriminate Hlen|].
  specialize (Hprops 0%nat _ b eq_refl eq_refl).
  unfold Button.withDefaults in Hprops. cbn in Hprops.
  cbn [Page.step Page.docs_page lookup list_lookup]. rewrite Hbs.
  cbn [lookup list_lookup]. rewrite button_emits, Hprops. cbn [Button.disabled].
  destruct (App.isLoading (Page.refs pg)).
  - cbn. rewrite app_nil_r. repeat split.
  - cbn [Page.notify Page.on_click]. unfold Page.openApiDocs.
    destruct window_defined; cbn; rewrite app_nil_r; repeat split.
Qed.

(** With listeners that are all inert, a page where nothing is pending
    stays so. *)
Lemma idle_stays_idle (MouseEvent : Type) (template : list (Page.Slot MouseEvent))
    (events : list (Page.Event MouseEvent)) :
  Forall (fun slot => forall event, PageInv.inert (Page.on_click slot event))
         template ->
  forall pg : Page.State * list Page.Effect,
    Page.waiting (fst pg) = [] ->
    Page.refs (fst (Page.after template events pg)) = Page.refs (fst pg)
    /\ Page.waiting (fst (Page.after template events pg)) = [].
Proof.
  intros Hinert. induction events as [|e rest IH]; intros [pg out] Hnone;
    [split; [reflexivity | exact Hnone]|].
  cbn [fst] in *. cbn [Page.after fst snd].
  assert (Hstep : Page.refs (fst (Page.step template e pg)) = Page.refs pg
                  /\ Page.waiting (fst (Page.step template e pg)) = []).
  { destruct e as [target d | n network]; cbn [Page.step].
    - destruct (template !! target) as [slot|] eqn:Hslot; [|split; [reflexivity | exact Hnone]].
      destruct (Page.buttons pg !! target) as [b|]; [|split; [reflexivity | exact Hnone]].
      rewrite button_emits.
      pose proof (proj1 (Forall_lookup _ _) Hinert target slot Hslot) as Hslot_inert.
      destruct d as [event| | | |]; try (cbn; rewrite Hnone; split; reflexivity).
      destruct (Button.disabled (Button.props b));
        [cbn; rewrite Hnone; split; reflexivity|].
      cbn [Page.notify].
      destruct (Hslot_inert event (Page.refs pg)) as (out' & -> & _).
      cbn. rewrite Hnone. split; reflexivity.
    - rewrite Hnone. cbn. split; [reflexivity | exact Hnone]. }
  destruct (Page.step template e pg) as [pg' out'] eqn:E. cbn [fst] in Hstep.
  destruct Hstep as [Hrefs Hwait].
  destruct (IH (pg', out ++ out') Hwait) as [Hrefs' Hwait']. cbn [fst] in *.
  split; [congruence | exact Hwait'].
Qed.

(** X19. The page with the single button probes the backend once: when
    the probe of mount has completed, the four refs keep the values it
    left, and nothing is pending, whatever happens on the page
    afterwards. *)
Theorem docs_page_probes_once (VITE_API_URL : option string)
    (window_defined : bool) (MouseEvent : Type)
    (events more : list (Page.Event MouseEvent)) :
  App.isLoading
    (Page.refs (fst (Page.docs_page_after VITE_API_URL window_defined events)))
  = false ->
  Page.refs
    (fst (Page.docs_page_after VITE_API_URL window_defined (events ++ more)))
  = Page.refs (fst (Page.docs_page_after VITE_API_URL window_defined events))
  /\ Page.waiting
       (fst (Page.docs_page_after VITE_API_URL window_defined (events ++ more)))
     = [].
Proof.
  unfold Page.docs_page_after. intros Hdone. rewrite after_app.
  destruct (reachable_view VITE_API_URL _
              (docs_page_tame VITE_API_URL window_defined MouseEvent) events)
    as [(_ & _ & [[_ Hnone] | [Hloading _]]) _]; [|congruence].
  apply idle_stays_idle; [|exact Hnone].
  unfold Page.docs_page. apply Forall_cons_2; [|apply Forall_nil_2].
  intros event s. cbn. unfold Page.openApiDocs.
  destruct window_defined; eexists; split; reflexivity.
Qed.

Lemma docs_page_probes_once_witness :
  Page.refs
    (fst (Page.docs_page_after (MouseEvent := unit) None true
            ([Page.settled 0 Examples.answers_500]
             ++ [Page.dom 0 (Page.ev_click tt);
                 Page.settled 0 Examples.answers_ready])))
  = Page.refs
      (fst (Page.docs_page_after (MouseEvent := unit) None true
              [Page.settled 0 Examples.answers_500]))
  /\ Page.waiting
       (fst (Page.docs_page_after (MouseEvent := unit) None true
               ([Page.settled 0 Examples.answers_500]
                ++ [Page.dom 0 (Page.ev_click tt);
                    Page.settled 0 Examples.answers_ready])))
     = [].
Proof. apply docs_page_probes_once. reflexivity. Defined.

(** X20. The probe started at mount, once the network has answered,
    leaves on the page the refs that one uninterrupted run of
    [testBackendConnection] computes, with nothing pending, and sends to
    the console what that run logs. *)
Theorem mount_probe_agrees_with_run (VITE_API_URL : option string)
    (MouseEvent : Type) (template : list (Page.Slot MouseEvent))
    (network : string -> Settled App.Response) :
  Page.refs
    (fst (Page.after template [Page.settled 0 network; Page.settled 0 network]
            (Page.mount VITE_API_URL template)))
  = final (App.probe VITE_API_URL network App.quiet App.setup)
  /\ Page.waiting
       (fst (Page.after template [Page.settled 0 network; Page.settled 0 network]
               (Page.mount VITE_API_URL template)))
     = []
  /\ snd (Page.after template [Page.settled 0 network; Page.settled 0 network]
            (Page.mount VITE_API_URL template))
     = Page.console
       <$> outputs (App.probe VITE_API_URL network App.quiet App.setup).
Proof.
  unfold Page.mount, Page.onMounted, Page.testBackendConnection.
  run_probe.
  destruct (network _) as [response|reason]; cbn -[pretty Page.render];
    [|repeat split].
  destruct (App.ok response); cbn -[pretty Page.render]; [|repeat split].
  destruct (App.json response) as [data|reason]; cbn -[pretty Page.render];
    [|repeat split].
  destruct data; repeat split.
Qed.

(** X21. The colour classes of the status box: green exactly when
    [isConnected], yellow exactly when [isLoading], red exactly when
    neither; so the box always has a colour, and red never comes with
    another. *)
Theorem panel_colours (s : App.Store) :
  (In "bg-green-50 border-green-200" (Page.panel_classes s)
   <-> App.isConnected s = true)
  /\ (In "bg-yellow-50 border-yellow-200" (Page.panel_classes s)
      <-> App.isLoading s = true)
  /\ (In "bg-red-50 border-red-200" (Page.panel_classes s)
      <-> App.isConnected s = false /\ App.isLoading s = false)
  /\ (In "bg-red-50 border-red-200" (Page.panel_classes s)
      <-> Page.panel_classes s = ["bg-red-50 border-red-200"])
  /\ Page.panel_classes s <> [].
Proof.
  destruct s as [st msg connected loading].
  destruct connected, loading; vm_compute; intuition discriminate.
Qed.

(** X22. On the page with the test button, a click on it when the last
    probe ended connected shows the status box green and yellow at once:
    starting a probe does not reset [isConnected]. *)
Theorem retest_after_success_is_green_and_yellow (VITE_API_URL : option string)
    (window_defined : bool) (MouseEvent : Type)
    (events : list (Page.Event MouseEvent)) (event : MouseEvent) :
  App.isLoading
    (Page.refs (fst (Page.status_page_after VITE_API_URL window_defined events)))
  = false ->
  App.isConnected
    (Page.refs (fst (Page.status_page_after VITE_API_URL window_defined events)))
  = true ->
  Page.panel_classes
    (Page.refs
       (fst (Page.status_page_after VITE_API_URL window_defined
               (events ++ [Page.dom 0 (Page.ev_click event)]))))
  = ["bg-green-50 border-green-200"; "bg-yellow-50 border-yellow-200"].
Proof.
  intros Hidle Hconnected.
  pose proof (test_click_refs VITE_API_URL window_defined MouseEvent events event)
    as Hclick.
  rewrite Hidle in Hclick.
  unfold Page.status_page_after in *. rewrite after_app.
  cbn [Page.after]. 
  destruct (Page.step _ _ _) as [pg' out']. cbn [fst] in *.
  rewrite Hclick. unfold Page.panel_classes, App.set_isLoading.
  cbn [App.isConnected App.isLoading]. rewrite Hconnected. reflexivity.
Qed.

Lemma retest_after_success_is_green_and_yellow_witness :
  Page.panel_classes
    (Page.refs
       (fst (Page.status_page_after (MouseEvent := unit) None true
               ([Page.settled 0 Examples.answers_ready;
                 Page.settled 0 Examples.answers_ready]
                ++ [Page.dom 0 (Page.ev_click tt)]))))
  = ["bg-green-50 border-green-200"; "bg-yellow-50 border-yellow-200"].
Proof.
  apply retest_after_success_is_green_and_yellow; reflexivity.
Defined.

(** * The page with the toast *)

(** One event keeps: every pending timer is a 1500 ms timer that hides
    the toast, and a shown toast has a timer pending. *)
Lemma toast_step (e : Landing.Event) (st : Landing.State) :
  Forall (fun t => t = (Landing.hide, 1500)) (Landing.timers st) ->
  (Landing.showToast st = true -> Landing.timers st <> []) ->
  Forall (fun t => t = (Landing.hide, 1500)) (Landing.timers (Landing.step e st))
  /\ (Landing.showToast (Landing.step e st) = true ->
      Landing.timers (Landing.step e st) <> []).
Proof.
  intros Hall Hshown. destruct e as [|n]; cbn [Landing.step].
  - unfold Landing.handleClick. cbn.
    destruct (Landing.showToast st); cbn.
    + rewrite app_nil_r. split; [exact Hall | discriminate].
    + split; [|intros _; destruct (Landing.timers st); discriminate].
      apply Forall_app. split; [exact Hall|]. repeat constructor.
  - destruct (Landing.timers st !! n) as [[callback delay]|] eqn:Hn;
      [|split; assumption].
    pose proof (proj1 (Forall_lookup _ _) Hall n _ Hn) as Ht.
    injection Ht as -> ->. cbn.
    split; [|discriminate].
    apply Forall_delete. exact Hall.
Qed.

Lemma toast_after (events : list Landing.Event) :
  forall st : Landing.State,
    Forall (fun t => t = (Landing.hide, 1500)) (Landing.timers st) ->
    (Landing.showToast st = true -> Landing.timers st <> []) ->
    Forall (fun t => t = (Landing.hide, 1500))
           (Landing.timers (Landing.after events st))
    /\ (Landing.showToast (Landing.after events st) = true ->
        Landing.timers (Landing.after events st) <> []).
Proof.
  induction events as [|e rest IH]; intros st Hall Hshown; [split; assumption|].
  cbn [Landing.after foldl].
  destruct (toast_step e st Hall Hshown) as [Hall' Hshown'].
  apply (IH _ Hall' Hshown').
Qed.

(** X23. After any sequence of clicks and timers firing, a toast that is
    shown has a timer pending: it is never left shown with nothing
    scheduled to hide it. *)
Theorem shown_toast_has_timer (events : list Landing.Event) :
  Landing.toast_rendered (Landing.after events Landing.setup) = true ->
  Landing.timers (Landing.after events Landing.setup) <> [].
Proof.
  apply (toast_after events Landing.setup); [constructor | discriminate].
Qed.

Lemma shown_toast_has_timer_witness :
  Landing.timers
    (Landing.after [Landing.click; Landing.fire 0; Landing.click; Landing.click;
                    Landing.click]
       Landing.setup) <> [].
Proof. apply shown_toast_has_timer. reflexivity. Defined.

(** X24. After any sequence of clicks and timers firing, every pending
    timer has the delay 1500 and the callback that sets [showToast] to
    false; whichever pending timer fires, the toast is hidden afterwards
    and that timer alone is removed from the pending ones. *)
Theorem any_timer_hides_toast (events : list Landing.Event) (n : nat) :
  (n < length (Landing.timers (Landing.after events Landing.setup)))%nat ->
  Landing.toast_rendered
    (Landing.step (Landing.fire n) (Landing.after events Landing.setup)) = false
  /\ Landing.timers
       (Landing.step (Landing.fire n) (Landing.after events Landing.setup))
     = delete n (Landing.timers (Landing.after events Landing.setup))
  /\ length (Landing.timers
               (Landing.step (Landing.fire n) (Landing.after events Landing.setup)))
     = pred (length (Landing.timers (Landing.after events Landing.setup)))
  /\ Forall (fun t => t = (Landing.hide, 1500))
            (Landing.timers (Landing.after events Landing.setup)).
Proof.
  intros Hn.
  destruct (toast_after events Landing.setup) as [Hall _];
    [constructor | discriminate |].
  cbn [Landing.step].
  destruct (Landing.timers (Landing.after events Landing.setup) !! n)
    as [[callback delay]|] eqn:Ht.
  - pose proof (proj1 (Forall_lookup _ _) Hall n _ Ht) as Heq.
    injection Heq as -> ->. cbn. split; [reflexivity|].
    split; [reflexivity|]. split; [|exact Hall].
    rewrite length_delete by eauto. lia.
  - apply lookup_ge_None_1 in Ht.
    exfalso. exact (Nat.lt_irrefl _ (Nat.lt_le_trans _ _ _ Hn Ht)).
Qed.

(** Click, click, click: the toast is shown for the second time, with
    the timer of the first showing still pending beside its own.  When
    the older timer fires, the toast is hidden and the later timer is
    still pending. *)
Lemma any_timer_hides_toast_witness :
  Landing.toast_rendered
    (Landing.after [Landing.click; Landing.click; Landing.click] Landing.setup)
  = true
  /\ Landing.timers
       (Landing.after [Landing.click; Landing.click; Landing.click] Landing.setup)
     = [(Landing.hide, 1500); (Landing.hide, 1500)]
  /\ Landing.toast_rendered
       (Landing.step (Landing.fire 0)
          (Landing.after [Landing.click; Landing.click; Landing.click]
             Landing.setup)) = false
  /\ Landing.timers
       (Landing.step (Landing.fire 0)
          (Landing.after [Landing.click; Landing.click; Landing.click]
             Landing.setup))
     = [(Landing.hide, 1500)].
Proof.
  split; [reflexivity|]. split; [reflexivity|].
  pose proof (any_timer_hides_toast
                [Landing.click; Landing.click; Landing.click] 0%nat) as H.
  destruct H as (Hhidden & Htimers & _ & _); [cbn; lia|].
  split; [exact Hhidden | exact Htimers].
Defined.

(** X25. In any state, two clicks in a row leave the toast as it was and
    exactly one more timer pending: a click never cancels a timer. *)
Theorem two_clicks_leave_a_timer (st : Landing.State) :
  Landing.showToast (Landing.step Landing.click (Landing.step Landing.click st))
  = Landing.showToast st
  /\ length (Landing.timers
               (Landing.step Landing.click (Landing.step Landing.click st)))
     = S (length (Landing.timers st)).
Proof.
  destruct st as [shown ts]. destruct shown; cbn;
    rewrite ?length_app; cbn; split; try reflexivity; lia.
Qed.
